(** * Home-automation integrations: geolocation trigger, iAlarm config flow,
      ClimaCell weather entity, Z-Wave JS constants

    A shallow embedding of four plugin modules of the host platform
    ([homeassistant/components/...]) and the properties their
    specification states about them.

    Conventions of the embedding.
    - Python text is [string]; [str.lower] is modelled on ASCII text
      (code points outside [A-Z] are left as they are).
    - A Python dict used as a map is a [gmap]; [d.get(k)] is [d !! k].
    - A call that may raise returns a [result]; the first exception raised
      is the one the caller sees.
    - Helpers of the host that are not part of these modules
      ([condition.zone], the vendor's probe, the unit converters, [dt_util],
      the vendor enums and the tables of [climacell/const.py]) are
      parameters: variables of a section, or the fields of the class [Host].
    - Numbers read from the vendor are exact rationals. *)

From Stdlib Require Import ZArith QArith Qcanon Ascii String List Bool Lia Sorted.
From stdpp Require Import base option gmap strings list.

Local Open Scope string_scope.

(** ** Exceptions and fallible calls *)

Inductive result (E A : Type) : Type :=
| Ok (a : A)
| Raise (e : E).
Arguments Ok {E A} a.
Arguments Raise {E A} e.

#[global] Instance result_ret {E} : MRet (result E) := fun A a => Ok a.
#[global] Instance result_bind {E} : MBind (result E) :=
  fun A B f m => match m with Ok a => f a | Raise e => Raise e end.

#[global] Instance result_fmap {E} : FMap (result E) :=
  fun A B f m => match m with Ok a => Ok (f a) | Raise e => Raise e end.

Definition returns {E A} (m : result E A) : Prop := exists a, m = Ok a.
Definition raises {E A} (m : result E A) : Prop := exists e, m = Raise e.

(** ** Text: [str.lower] and the [in] operator on strings *)

Module Text.

Definition is_upper (c : ascii) : bool :=
  (65 <=? nat_of_ascii c)%nat && (nat_of_ascii c <=? 90)%nat.

Definition lower_ascii (c : ascii) : ascii :=
  if is_upper c then ascii_of_nat (nat_of_ascii c + 32) else c.

(** [s.lower()] *)
Fixpoint lower (s : string) : string :=
  match s with
  | EmptyString => EmptyString
  | String c s' => String (lower_ascii c) (lower s')
  end.

(** [any(c.isupper() for c in s)] on ASCII text. *)
Fixpoint has_upper (s : string) : bool :=
  match s with
  | EmptyString => false
  | String c s' => is_upper c || has_upper s'
  end.

(** [sub in s]: [sub] occurs in [s] as a contiguous run. *)
Fixpoint contains (sub s : string) : bool :=
  String.prefix sub s ||
  match s with
  | EmptyString => false
  | String _ s' => contains sub s'
  end.

End Text.

(** ** [geo_location/trigger.py]: the geolocation automation trigger *)

Module geo_location.

(** Values a state attribute may hold. *)
Inductive value :=
| VNone
| VBool (b : bool)
| VNum (q : Qc)
| VStr (s : string).

(** [v == s] for an attribute lookup [v] and a [str] [s]: only a [str] with
    the same characters is equal to a [str]; a missing attribute reads as
    [None], which is not. *)
Definition py_eq_str (v : option value) (s : string) : bool :=
  match v with
  | Some (VStr t) => String.eqb t s
  | _ => false
  end.

Record State := {
  entity_id : string;
  state : string;
  attributes : gmap string value;
}.

Definition EVENT_ENTER := "enter".
Definition EVENT_LEAVE := "leave".
Definition DEFAULT_EVENT := EVENT_ENTER.

(** A configuration accepted by [TRIGGER_SCHEMA]. *)
Record Config := {
  CONF_SOURCE : string;
  CONF_ZONE : string;
  CONF_EVENT : string;
}.

(** [source_match(state, source)], read for its truth value. *)
Definition source_match (st : option State) (source : string) : bool :=
  match st with
  | None => false
  | Some s => py_eq_str (attributes s !! "source") source
  end.

Section Trigger.

(** The automation action, the event context and the host's condition
    errors are opaque to the trigger. *)
Variables (Action EventContext Exc : Type).

(** [event.data] with the three keys the listener reads, and [event.context]. *)
Record Event := {
  data_entity_id : option string;
  old_state : option State;
  new_state : option State;
  context : EventContext;
}.

(** The variables handed to the action. *)
Record TriggerData := {
  tr_platform : string;
  tr_source : string;
  tr_entity_id : option string;
  tr_from_state : option State;
  tr_to_state : option State;
  tr_zone : option State;
  tr_event : string;
  tr_description : string;
  tr_id : option string;
}.

Record JobRun := {
  run_job : Action;
  run_trigger : TriggerData;
  run_context : EventContext;
}.

(** The part of the host the listener touches: the state machine it reads
    and the jobs it has been asked to run, oldest first. *)
Record Hass := {
  states : gmap string State;
  jobs_run : list JobRun;
}.

(** Modelled from the spec: [hass.async_run_hass_job], the host's job
    runner, is not part of this module; it is recorded as one more run. *)
Definition async_run_hass_job (hass : Hass) (job : Action)
    (variables : TriggerData) (ctx : EventContext) : Hass :=
  {| states := states hass;
     jobs_run := (jobs_run hass ++ [{| run_job := job; run_trigger := variables;
                                       run_context := ctx |}])%list |}.

(** [condition.zone(hass, zone_state, state)] of the host: a membership
    test that may raise. *)
Variable condition_zone : Hass -> option State -> State -> result Exc bool.

(** What [async_attach_trigger] binds for its listener. *)
Record Attached := {
  trigger_id : option string;
  source : string;
  zone_entity_id : string;
  trigger_event : string;
  job : Action;
}.

Definition async_attach_trigger (config : Config) (action : Action)
    (automation_info : option (gmap string string)) : Attached :=
  {| trigger_id :=
       match automation_info with
       | Some info => if decide (info = ∅) then None else info !! "trigger_id"
       | None => None
       end;
     source := Text.lower (CONF_SOURCE config);
     zone_entity_id := CONF_ZONE config;
     trigger_event := CONF_EVENT config;
     job := action |}.

Definition state_change_listener (env : Attached) (hass : Hass)
    (event : Event) : result Exc Hass :=
  let from_state := old_state event in
  let to_state := new_state event in
  if negb (source_match from_state (source env))
     && negb (source_match to_state (source env))
  then Ok hass
  else
    let zone_state := states hass !! zone_entity_id env in
    from_match ← match from_state with
                 | Some s => condition_zone hass zone_state s
                 | None => Ok false
                 end;
    to_match ← match to_state with
               | Some s => condition_zone hass zone_state s
               | None => Ok false
               end;
    if String.eqb (trigger_event env) EVENT_ENTER && negb from_match && to_match
       || String.eqb (trigger_event env) EVENT_LEAVE && from_match && negb to_match
    then
      Ok (async_run_hass_job hass (job env)
            {| tr_platform := "geo_location";
               tr_source := source env;
               tr_entity_id := data_entity_id event;
               tr_from_state := from_state;
               tr_to_state := to_state;
               tr_zone := zone_state;
               tr_event := trigger_event env;
               tr_description := "geo_location - " ++ source env;
               tr_id := trigger_id env |}
            (context event))
    else Ok hass.

(** *** Vocabulary of the properties *)

(** The state exists and carries a ['source'] attribute equal to [src]. *)
Definition has_source (st : option State) (src : string) : Prop :=
  exists s, st = Some s /\ attributes s !! "source" = Some (VStr src).

(** The zone test answers for the state, and says it is inside. *)
Definition in_zone (env : Attached) (hass : Hass) (st : option State) : Prop :=
  exists s, st = Some s /\
    condition_zone hass (states hass !! zone_entity_id env) s = Ok true.

(** There is no state, or the zone test answers that it is outside. *)
Definition not_in_zone (env : Attached) (hass : Hass) (st : option State) : Prop :=
  st = None \/
  exists s, st = Some s /\
    condition_zone hass (states hass !! zone_entity_id env) s = Ok false.

Definition zone_transition (env : Attached) (hass : Hass) (event : Event) : Prop :=
  (trigger_event env = EVENT_ENTER /\
     not_in_zone env hass (old_state event) /\ in_zone env hass (new_state event))
  \/
  (trigger_event env = EVENT_LEAVE /\
     in_zone env hass (old_state event) /\ not_in_zone env hass (new_state event)).

(** The listener returns, and the host has been asked to run the action
    exactly once more, for this event. *)
Definition action_invoked (env : Attached) (hass : Hass) (event : Event) : Prop :=
  exists hass' run,
    state_change_listener env hass event = Ok hass' /\
    states hass' = states hass /\
    jobs_run hass' = (jobs_run hass ++ [run])%list /\
    run_job run = job env /\
    run_context run = context event /\
    tr_from_state (run_trigger run) = old_state event /\
    tr_to_state (run_trigger run) = new_state event.

(** The listener leaves the host as it found it. *)
Definition action_skipped (env : Attached) (hass : Hass) (event : Event) : Prop :=
  state_change_listener env hass event = Ok hass.

End Trigger.

Arguments data_entity_id {EventContext} _.
Arguments old_state {EventContext} _.
Arguments new_state {EventContext} _.
Arguments context {EventContext} _.
Arguments run_job {Action EventContext} _.
Arguments run_trigger {Action EventContext} _.
Arguments run_context {Action EventContext} _.
Arguments states {Action EventContext} _.
Arguments jobs_run {Action EventContext} _.
Arguments trigger_id {Action} _.
Arguments source {Action} _.
Arguments zone_entity_id {Action} _.
Arguments trigger_event {Action} _.
Arguments job {Action} _.
Arguments async_run_hass_job {Action EventContext} hass job variables ctx.
Arguments async_attach_trigger {Action} config action automation_info.
Arguments state_change_listener {Action EventContext Exc} condition_zone env hass event.
Arguments in_zone {Action EventContext Exc} condition_zone env hass st.
Arguments not_in_zone {Action EventContext Exc} condition_zone env hass st.
Arguments zone_transition {Action EventContext Exc} condition_zone env hass event.
Arguments action_invoked {Action EventContext Exc} condition_zone env hass event.
Arguments action_skipped {Action EventContext Exc} condition_zone env hass event.

End geo_location.

(** ** [ialarm/config_flow.py]: the iAlarm config flow *)

Module ialarm.

(** Exceptions, by the classes the step's handlers tell apart. *)
Inductive PyExc :=
| ConnectionError (cls : string)   (* [ConnectionError] or a subclass of it *)
| AbortFlow (reason : string)      (* the host's flow abort, an [Exception] *)
| OtherException (cls : string)    (* any other subclass of [Exception] *)
| NonException (cls : string).     (* a [BaseException] outside [Exception] *)

(** [isinstance(e, ConnectionError)] and [isinstance(e, Exception)]. *)
Definition is_ConnectionError (e : PyExc) : bool :=
  match e with ConnectionError _ => true | _ => false end.
Definition is_Exception (e : PyExc) : bool :=
  match e with NonException _ => false | _ => true end.

(** A [user_input] accepted by [DATA_SCHEMA]: exactly a host and a port. *)
Record UserInput := {
  CONF_HOST : string;
  CONF_PORT : Z;
}.

(** The form's schema is passed to the host as it is. *)
Inductive Schema := DATA_SCHEMA.

Inductive FlowResult :=
| Form (step_id : string) (data_schema : Schema)
       (errors : option (gmap string string))
| CreateEntry (title : string) (data : UserInput).

(** An entry the host already holds for this integration. *)
Record ConfigEntry := {
  entry_unique_id : option string;
  entry_title : string;
  entry_data : UserInput;
}.

(** What a step can change: the flow's unique id and the module's log
    (message and the exception logged with it, oldest first). *)
Record FlowState := {
  unique_id : option string;
  logged : list (string * PyExc);
}.

(** Modelled from the spec: [ConfigFlow.async_show_form] of the host's
    config-entry flow API (form schema, step results) is not part of this
    module; it builds the form result. *)
Definition async_show_form (step_id : string) (data_schema : Schema)
    (errors : option (gmap string string)) : FlowResult :=
  Form step_id data_schema errors.

(** Modelled from the spec: [ConfigFlow.async_create_entry] of the host's
    flow API is not part of this module; it builds the one config-entry
    creation payload. *)
Definition async_create_entry (title : string) (data : UserInput) : FlowResult :=
  CreateEntry title data.

(** Modelled from the spec: [ConfigFlow.async_set_unique_id] of the host is
    not part of this module; it assigns the flow's unique identifier. *)
Definition async_set_unique_id (st : FlowState) (uid : option string) : FlowState :=
  {| unique_id := uid; logged := logged st |}.

(** Modelled from the spec: [ConfigFlow._abort_if_unique_id_configured]
    (the host's unique-ID dedup) is not part of this module; it aborts the
    flow when an entry with the flow's unique id exists. *)
Definition already_configured (entries : list ConfigEntry) (uid : string) : bool :=
  existsb (fun e => match entry_unique_id e with
                    | Some u => String.eqb u uid
                    | None => false
                    end) entries.

Definition _abort_if_unique_id_configured (entries : list ConfigEntry)
    (st : FlowState) : result PyExc unit :=
  match unique_id st with
  | None => Ok tt
  | Some uid =>
      if already_configured entries uid
      then Raise (AbortFlow "already_configured")
      else Ok tt
  end.

(** [_LOGGER.exception(msg)] inside a handler for [e]. *)
Definition log_exception (st : FlowState) (msg : string) (e : PyExc) : FlowState :=
  {| unique_id := unique_id st; logged := (logged st ++ [(msg, e)])%list |}.

Section Flow.

(** [IAlarm(host, port).get_mac()] of the vendor client: the network probe. *)
Variable get_mac : string -> Z -> result PyExc string.

(** The entries the host holds when the step runs. *)
Variable entries : list ConfigEntry.

(** The executor only runs the probe; what it raises reaches the caller. *)
Definition _get_device_mac (host : string) (port : Z) : result PyExc string :=
  get_mac host port.

Definition async_step_user (st : FlowState) (user_input : option UserInput)
    : result PyExc FlowResult * FlowState :=
  let errors : gmap string string := ∅ in
  let mac : option string := None in
  match user_input with
  | None => (Ok (async_show_form "user" DATA_SCHEMA None), st)
  | Some input =>
      let host := CONF_HOST input in
      let port := CONF_PORT input in
      let after_try : result PyExc (option string * gmap string string) * FlowState :=
        match _get_device_mac host port with
        | Ok m => (Ok (Some m, errors), st)
        | Raise e =>
            if is_ConnectionError e then
              (Ok (mac, <["base" := "cannot_connect"]> errors), st)
            else if is_Exception e then
              (Ok (mac, <["base" := "unknown"]> errors),
               log_exception st "Unexpected exception" e)
            else (Raise e, st)
        end in
      match after_try with
      | (Raise e, st) => (Raise e, st)
      | (Ok (mac, errors), st) =>
          if negb (bool_decide (errors = ∅)) then
            (Ok (async_show_form "user" DATA_SCHEMA (Some errors)), st)
          else
            let st := async_set_unique_id st mac in
            match _abort_if_unique_id_configured entries st with
            | Raise e => (Raise e, st)
            | Ok _ => (Ok (async_create_entry (CONF_HOST input) input), st)
            end
      end
  end.

End Flow.

(** *** Vocabulary of the properties *)

(** The config entries a step's outcome asks the host to create. *)
Definition created_entries (r : result PyExc FlowResult) : list (string * UserInput) :=
  match r with
  | Ok (CreateEntry title data) => [(title, data)]
  | _ => []
  end.

(** The step shows the user form again with the one base error [err]. *)
Definition shows_form_with_base_error (r : result PyExc FlowResult) (err : string) : Prop :=
  r = Ok (Form "user" DATA_SCHEMA (Some {["base" := err]})).

(** The probe for this input raises [e], an [Exception] that is no
    [ConnectionError]. *)
Definition unexpected_failure (get_mac : string -> Z -> result PyExc string)
    (user_input : option UserInput) (e : PyExc) : Prop :=
  exists input,
    user_input = Some input
    /\ get_mac (CONF_HOST input) (CONF_PORT input) = Raise e
    /\ is_Exception e = true
    /\ is_ConnectionError e = false.

End ialarm.

(** ** [climacell/weather.py]: the ClimaCell weather entities *)

Module climacell.

Inductive PyExc := ValueError | KeyError | AttributeError | TypeError.

(** *** Numbers

    Vendor readings are [float | None].  The embedding reads a number as an
    exact rational; a test [if x:] on a reading is [truthy]. *)

Definition Zc (z : Z) : Qc := Q2Qc (inject_Z z).

Definition is_zero (q : Qc) : bool := (Qnum (this q) =? 0)%Z.

Definition truthy (x : option Qc) : bool :=
  match x with
  | Some q => negb (is_zero q)
  | None => false
  end.

(** *** Constants of the host and of the vendor library *)

Inductive LengthUnit := LENGTH_FEET | LENGTH_KILOMETERS | LENGTH_METERS | LENGTH_MILES.
Inductive PressureUnit := PRESSURE_HPA | PRESSURE_INHG.
Inductive TemperatureUnit := TEMP_CELSIUS | TEMP_FAHRENHEIT.
Inductive ForecastType := DAILY | HOURLY | NOWCAST.

#[global] Instance ForecastType_eq_dec : EqDecision ForecastType.
Proof. solve_decision. Defined.

(** The keys under which a v3 payload is read. *)
Inductive V3Attr :=
| CC_V3_ATTR_CLOUD_COVER | CC_V3_ATTR_CONDITION | CC_V3_ATTR_HUMIDITY
| CC_V3_ATTR_OZONE | CC_V3_ATTR_PRECIPITATION | CC_V3_ATTR_PRECIPITATION_DAILY
| CC_V3_ATTR_PRECIPITATION_PROBABILITY | CC_V3_ATTR_PRECIPITATION_TYPE
| CC_V3_ATTR_PRESSURE | CC_V3_ATTR_TEMPERATURE | CC_V3_ATTR_TEMPERATURE_HIGH
| CC_V3_ATTR_TEMPERATURE_LOW | CC_V3_ATTR_TIMESTAMP | CC_V3_ATTR_VISIBILITY
| CC_V3_ATTR_WIND_DIRECTION | CC_V3_ATTR_WIND_GUST | CC_V3_ATTR_WIND_SPEED.

(** [datetime.date], ordered as Python orders dates. *)
Record Date := { year : Z; month : Z; day : Z }.

Definition date_lt (a b : Date) : bool :=
  (year a <? year b)%Z
  || ((year a =? year b)%Z
      && ((month a <? month b)%Z
          || ((month a =? month b)%Z && (day a <? day b)%Z))).

(** What the entities use and this module does not define: [dt_util] and
    [datetime], the sun helper, the unit converters, the vendor library's
    enums, the tables of [const.py], and the v3 payload reader
    [ClimaCellEntity._get_cc_value]. *)
Class Host := {
  datetime : Type;
  (** [dt.date()] and [dt.isoformat()] *)
  dt_date : datetime -> Date;
  isoformat : datetime -> string;
  (** [dt_util.parse_datetime(s)]: [None] when [s] is no timestamp *)
  parse_datetime : string -> option datetime;
  (** [dt_util.start_of_local_day(dt)], which accepts [None] *)
  start_of_local_day : option datetime -> datetime;
  (** [dt_util.utcnow()]: what the [n]-th reading within a call returns *)
  utcnow : nat -> datetime;
  (** [is_up(hass, dt)]; [is_up(hass)] is [is_up None] *)
  is_up : option datetime -> bool;
  (** [distance_convert(value, from, to)], [pressure_convert(value, from, to)] *)
  distance_convert : Qc -> LengthUnit -> LengthUnit -> Qc;
  pressure_convert : Qc -> PressureUnit -> PressureUnit -> Qc;
  (** The enum [WeatherCode]: its members, the lookup by value
      [WeatherCode(n)] ([None]: [ValueError]) and two of its members *)
  WeatherCodeT : Type;
  WeatherCodeT_eq_dec :: EqDecision WeatherCodeT;
  WeatherCodeT_countable :: Countable WeatherCodeT;
  WeatherCode : Z -> option WeatherCodeT;
  CLEAR : WeatherCodeT;
  MOSTLY_CLEAR : WeatherCodeT;
  (** [PrecipitationType(n).name] ([None]: [ValueError]) *)
  PrecipitationType_name : Z -> option string;
  (** The tables of [const.py] *)
  CLEAR_CONDITIONS : gmap string string;
  CONDITIONS : gmap WeatherCodeT string;
  CONDITIONS_V3 : gmap string string;
  MAX_FORECASTS : ForecastType -> Z;
  (** v3 payload dicts: [_get_cc_value(d, key)] where a number and where
      text is read, [d[key]] where a list of dicts is read ([None]:
      [KeyError]), and [key in d] *)
  V3Dict : Type;
  _get_cc_value : V3Dict -> V3Attr -> option Qc;
  _get_cc_value_str : V3Dict -> V3Attr -> option string;
  v3_getitem : V3Dict -> V3Attr -> option (list V3Dict);
  v3_has_key : string -> V3Dict -> bool;
}.

(** [table[key]] *)
Definition getitem `{Countable K} {V} (table : gmap K V) (key : K) : result PyExc V :=
  match table !! key with
  | Some v => Ok v
  | None => Raise KeyError
  end.

(** What every entity holds besides its payload. *)
Record Entity (Data : Type) := {
  is_metric : bool;            (* [self.hass.config.units.is_metric] *)
  coordinator_data : Data;     (* [self.coordinator.data] *)
  forecast_type : ForecastType;
  CONF_TIMESTEP : option Z;    (* [self._config_entry.options], that key *)
}.
Arguments is_metric {Data} _.
Arguments coordinator_data {Data} _.
Arguments forecast_type {Data} _.
Arguments CONF_TIMESTEP {Data} _.

(** One forecast as handed to the host: a key is absent where the field
    is [None]. *)
Record Forecast := {
  ATTR_FORECAST_TIME : option string;
  ATTR_FORECAST_CONDITION : option string;
  ATTR_FORECAST_PRECIPITATION : option Qc;
  ATTR_FORECAST_PRECIPITATION_PROBABILITY : option Qc;
  ATTR_FORECAST_TEMP : option Qc;
  ATTR_FORECAST_TEMP_LOW : option Qc;
  ATTR_FORECAST_WIND_BEARING : option Qc;
  ATTR_FORECAST_WIND_SPEED : option Qc;
}.

Record ExtraStateAttributes := {
  ATTR_CLOUD_COVER : option Qc;
  ATTR_WIND_GUST : option Qc;
  ATTR_PRECIPITATION_TYPE : option string;
}.

Module BaseClimaCellWeatherEntity.

(** The methods a subclass supplies are arguments here. *)
Definition _forecast_dict `{Host} {Data Cond : Type}
    (_translate_condition : option Cond -> bool -> result PyExc (option string))
    (self : Entity Data)
    (forecast_dt : option datetime) (use_datetime : bool)
    (condition : option Cond)
    (precipitation precipitation_probability temp temp_low
     wind_direction wind_speed : option Qc) : result PyExc Forecast :=
  translated_condition ←
    (if use_datetime
     then _translate_condition condition (is_up forecast_dt)
     else _translate_condition condition true);
  let precipitation :=
    if is_metric self && truthy precipitation
    then (fun p => distance_convert (p / Zc 12) LENGTH_FEET LENGTH_METERS * Zc 1000)%Qc
           <$> precipitation
    else precipitation in
  let wind_speed :=
    if is_metric self && truthy wind_speed
    then (fun w => distance_convert w LENGTH_MILES LENGTH_KILOMETERS) <$> wind_speed
    else wind_speed in
  time ← match forecast_dt with
         | Some dt => Ok (isoformat dt)
         | None => Raise AttributeError
         end;
  Ok {| ATTR_FORECAST_TIME := Some time;
        ATTR_FORECAST_CONDITION := translated_condition;
        ATTR_FORECAST_PRECIPITATION := precipitation;
        ATTR_FORECAST_PRECIPITATION_PROBABILITY := precipitation_probability;
        ATTR_FORECAST_TEMP := temp;
        ATTR_FORECAST_TEMP_LOW := temp_low;
        ATTR_FORECAST_WIND_BEARING := wind_direction;
        ATTR_FORECAST_WIND_SPEED := wind_speed |}.

Definition extra_state_attributes `{Host} {Data : Type}
    (wind_gust cloud_cover : Entity Data -> option Qc)
    (precipitation_type : Entity Data -> result PyExc (option string))
    (self : Entity Data) : result PyExc ExtraStateAttributes :=
  let wind_gust' := wind_gust self in
  let wind_gust' :=
    if truthy wind_gust' && is_metric self
    then (fun g => distance_convert g LENGTH_MILES LENGTH_KILOMETERS) <$> wind_gust self
    else wind_gust' in
  let cloud_cover' := (fun c => c / Zc 100)%Qc <$> cloud_cover self in
  ptype ← precipitation_type self;
  Ok {| ATTR_CLOUD_COVER := cloud_cover';
        ATTR_WIND_GUST := wind_gust';
        ATTR_PRECIPITATION_TYPE := ptype |}.

End BaseClimaCellWeatherEntity.

(** The entity of the v4 API. *)
Module ClimaCellWeatherEntity.

(** [coordinator.data[CURRENT]] and a forecast's ["values"], by key. *)
Record Values := {
  CC_ATTR_TEMPERATURE : option Qc;
  CC_ATTR_TEMPERATURE_HIGH : option Qc;
  CC_ATTR_TEMPERATURE_LOW : option Qc;
  CC_ATTR_PRESSURE : option Qc;
  CC_ATTR_HUMIDITY : option Qc;
  CC_ATTR_WIND_GUST : option Qc;
  CC_ATTR_CLOUD_COVER : option Qc;
  CC_ATTR_PRECIPITATION_TYPE : option Z;
  CC_ATTR_WIND_SPEED : option Qc;
  CC_ATTR_WIND_DIRECTION : option Qc;
  CC_ATTR_OZONE : option Qc;
  CC_ATTR_CONDITION : option Z;
  CC_ATTR_VISIBILITY : option Qc;
  CC_ATTR_PRECIPITATION : option Qc;
  CC_ATTR_PRECIPITATION_PROBABILITY : option Qc;
}.

Record RawForecast := {
  CC_ATTR_TIMESTAMP : string;
  values : Values;
}.

Record Data := {
  CURRENT : option Values;
  FORECASTS : option (ForecastType -> option (list RawForecast));
}.

Definition _translate_condition `{Host} (condition : option Z) (sun_is_up : bool)
    : result PyExc (option string) :=
  match condition with
  | None => Ok None
  | Some n =>
      match WeatherCode n with
      | None => Raise ValueError
      | Some condition =>
          if bool_decide (condition = CLEAR \/ condition = MOSTLY_CLEAR) then
            if sun_is_up
            then Some <$> getitem CLEAR_CONDITIONS "day"
            else Some <$> getitem CLEAR_CONDITIONS "night"
          else Some <$> getitem CONDITIONS condition
      end
  end.

Definition _get_current_property {A} (self : Entity Data)
    (property_name : Values -> option A) : option A :=
  CURRENT (coordinator_data self) ≫= property_name.

Definition temperature (self : Entity Data) := _get_current_property self CC_ATTR_TEMPERATURE.

Definition temperature_unit (self : Entity Data) : TemperatureUnit := TEMP_FAHRENHEIT.

Definition pressure `{Host} (self : Entity Data) : option Qc :=
  let pressure := _get_current_property self CC_ATTR_PRESSURE in
  if is_metric self && truthy pressure
  then (fun p => pressure_convert p PRESSURE_INHG PRESSURE_HPA) <$> pressure
  else pressure.

Definition humidity (self : Entity Data) := _get_current_property self CC_ATTR_HUMIDITY.
Definition wind_gust (self : Entity Data) := _get_current_property self CC_ATTR_WIND_GUST.
Definition cloud_cover (self : Entity Data) := _get_current_property self CC_ATTR_CLOUD_COVER.

Definition precipitation_type `{Host} (self : Entity Data) : result PyExc (option string) :=
  match _get_current_property self CC_ATTR_PRECIPITATION_TYPE with
  | None => Ok None
  | Some n =>
      match PrecipitationType_name n with
      | None => Raise ValueError
      | Some name => Ok (Some (Text.lower name))
      end
  end.

Definition wind_speed `{Host} (self : Entity Data) : option Qc :=
  let wind_speed := _get_current_property self CC_ATTR_WIND_SPEED in
  if is_metric self && truthy wind_speed
  then (fun w => distance_convert w LENGTH_MILES LENGTH_KILOMETERS) <$> wind_speed
  else wind_speed.

Definition wind_bearing (self : Entity Data) := _get_current_property self CC_ATTR_WIND_DIRECTION.
Definition ozone (self : Entity Data) := _get_current_property self CC_ATTR_OZONE.

Definition condition `{Host} (self : Entity Data) : result PyExc (option string) :=
  _translate_condition (_get_current_property self CC_ATTR_CONDITION) (is_up None).

Definition visibility `{Host} (self : Entity Data) : option Qc :=
  let visibility := _get_current_property self CC_ATTR_VISIBILITY in
  if is_metric self && truthy visibility
  then (fun v => distance_convert v LENGTH_MILES LENGTH_KILOMETERS) <$> visibility
  else visibility.

Definition extra_state_attributes `{Host} (self : Entity Data) :=
  BaseClimaCellWeatherEntity.extra_state_attributes
    wind_gust cloud_cover precipitation_type self.

(** The body of the forecast loop for an entry that is kept. *)
Definition forecast_entry `{Host} (self : Entity Data) (forecast : RawForecast)
    (forecast_dt : datetime) : result PyExc Forecast :=
  let values := values forecast in
  let use_datetime := true in
  let condition := CC_ATTR_CONDITION values in
  let precipitation := CC_ATTR_PRECIPITATION values in
  let precipitation_probability := CC_ATTR_PRECIPITATION_PROBABILITY values in
  let temp := CC_ATTR_TEMPERATURE_HIGH values in
  let temp_low := CC_ATTR_TEMPERATURE_LOW values in
  let wind_direction := CC_ATTR_WIND_DIRECTION values in
  let wind_speed := CC_ATTR_WIND_SPEED values in
  '(use_datetime, precipitation) ←
    match forecast_type self with
    | DAILY =>
        Ok (false,
            if truthy precipitation
            then (fun p => p * Zc 24)%Qc <$> precipitation
            else precipitation)
    | NOWCAST =>
        if truthy precipitation then
          match CONF_TIMESTEP self with
          | Some timestep =>
              Ok (use_datetime, (fun p => p / Zc 60 * Zc timestep)%Qc <$> precipitation)
          | None => Raise KeyError
          end
        else Ok (use_datetime, precipitation)
    | HOURLY => Ok (use_datetime, precipitation)
    end;
  BaseClimaCellWeatherEntity._forecast_dict _translate_condition self
    (Some forecast_dt) use_datetime condition precipitation
    precipitation_probability temp temp_low wind_direction wind_speed.

(** The loop over [raw_forecasts]; [tick] counts the readings of the clock
    so far, one per entry looked at. *)
Fixpoint forecast_loop `{Host} (self : Entity Data) (max_forecasts : Z)
    (raw_forecasts : list RawForecast) (tick : nat)
    (forecasts : list Forecast) (forecast_count : Z)
    : result PyExc (list Forecast) :=
  match raw_forecasts with
  | [] => Ok forecasts
  | forecast :: rest =>
      match parse_datetime (CC_ATTR_TIMESTAMP forecast) with
      | None => Raise AttributeError
      | Some forecast_dt =>
          if date_lt (dt_date forecast_dt) (dt_date (utcnow tick)) then
            forecast_loop self max_forecasts rest (S tick) forecasts forecast_count
          else
            match forecast_entry self forecast forecast_dt with
            | Raise e => Raise e
            | Ok entry =>
                let forecasts := (forecasts ++ [entry])%list in
                let forecast_count := (forecast_count + 1)%Z in
                if (forecast_count =? max_forecasts)%Z then Ok forecasts
                else forecast_loop self max_forecasts rest (S tick)
                       forecasts forecast_count
            end
      end
  end.

Definition raw_forecasts (self : Entity Data) : option (list RawForecast) :=
  FORECASTS (coordinator_data self) ≫= (fun by_type => by_type (forecast_type self)).

Definition forecast `{Host} (self : Entity Data) : result PyExc (option (list Forecast)) :=
  match raw_forecasts self with
  | None | Some [] => Ok None
  | Some raw =>
      let max_forecasts := MAX_FORECASTS (forecast_type self) in
      Some <$> forecast_loop self max_forecasts raw 0 [] 0
  end.

End ClimaCellWeatherEntity.

(** The entity of the v3 API. *)
Module ClimaCellV3WeatherEntity.

Record Data `{Host} := {
  CURRENT : option V3Dict;
  FORECASTS : option (ForecastType -> option (list V3Dict));
}.

Definition _translate_condition `{Host} (condition : option string) (sun_is_up : bool)
    : result PyExc (option string) :=
  match condition with
  | None => Ok None
  | Some c =>
      if String.eqb c "" then Ok None
      else if Text.contains "clear" (Text.lower c) then
        if sun_is_up
        then Some <$> getitem CLEAR_CONDITIONS "day"
        else Some <$> getitem CLEAR_CONDITIONS "night"
      else Some <$> getitem CONDITIONS_V3 c
  end.

(** [self.coordinator.data[CURRENT]] *)
Definition current `{Host} (self : Entity Data) : result PyExc V3Dict :=
  match CURRENT (coordinator_data self) with
  | Some d => Ok d
  | None => Raise KeyError
  end.

Definition temperature `{Host} (self : Entity Data) : result PyExc (option Qc) :=
  d ← current self; Ok (_get_cc_value d CC_V3_ATTR_TEMPERATURE).

Definition temperature_unit `{Host} (self : Entity Data) : TemperatureUnit :=
  TEMP_FAHRENHEIT.

Definition pressure `{Host} (self : Entity Data) : result PyExc (option Qc) :=
  d ← current self;
  let pressure := _get_cc_value d CC_V3_ATTR_PRESSURE in
  if is_metric self && truthy pressure
  then Ok ((fun p => pressure_convert p PRESSURE_INHG PRESSURE_HPA) <$> pressure)
  else Ok pressure.

Definition humidity `{Host} (self : Entity Data) : result PyExc (option Qc) :=
  d ← current self; Ok (_get_cc_value d CC_V3_ATTR_HUMIDITY).

Definition wind_gust `{Host} (self : Entity Data) : result PyExc (option Qc) :=
  d ← current self; Ok (_get_cc_value d CC_V3_ATTR_WIND_GUST).

Definition cloud_cover `{Host} (self : Entity Data) : result PyExc (option Qc) :=
  d ← current self; Ok (_get_cc_value d CC_V3_ATTR_CLOUD_COVER).

Definition precipitation_type `{Host} (self : Entity Data) : result PyExc (option string) :=
  d ← current self; Ok (_get_cc_value_str d CC_V3_ATTR_PRECIPITATION_TYPE).

Definition wind_speed `{Host} (self : Entity Data) : result PyExc (option Qc) :=
  d ← current self;
  let wind_speed := _get_cc_value d CC_V3_ATTR_WIND_SPEED in
  if is_metric self && truthy wind_speed
  then Ok ((fun w => distance_convert w LENGTH_MILES LENGTH_KILOMETERS) <$> wind_speed)
  else Ok wind_speed.

Definition wind_bearing `{Host} (self : Entity Data) : result PyExc (option Qc) :=
  d ← current self; Ok (_get_cc_value d CC_V3_ATTR_WIND_DIRECTION).

Definition ozone `{Host} (self : Entity Data) : result PyExc (option Qc) :=
  d ← current self; Ok (_get_cc_value d CC_V3_ATTR_OZONE).

Definition condition `{Host} (self : Entity Data) : result PyExc (option string) :=
  d ← current self;
  _translate_condition (_get_cc_value_str d CC_V3_ATTR_CONDITION) (is_up None).

Definition visibility `{Host} (self : Entity Data) : result PyExc (option Qc) :=
  d ← current self;
  let visibility := _get_cc_value d CC_V3_ATTR_VISIBILITY in
  if is_metric self && truthy visibility
  then Ok ((fun v => distance_convert v LENGTH_MILES LENGTH_KILOMETERS) <$> visibility)
  else Ok visibility.

(** The base class reads [self.wind_gust] (twice when it converts), then
    [self.cloud_cover], then [self.precipitation_type]; each read of a v3
    property raises when there are no current conditions. *)
Definition extra_state_attributes `{Host} (self : Entity Data)
    : result PyExc ExtraStateAttributes :=
  wind_gust' ← wind_gust self;
  cloud_cover' ← cloud_cover self;
  BaseClimaCellWeatherEntity.extra_state_attributes
    (fun _ => wind_gust') (fun _ => cloud_cover') precipitation_type self.

(** [next((f(item) for item in items if key in item), default)] *)
Definition next_value `{Host} (f : V3Dict -> option Qc) (key : string)
    (items : list V3Dict) (default : option Qc) : option Qc :=
  match List.filter (v3_has_key key) items with
  | item :: _ => f item
  | [] => default
  end.

(** The body of the forecast loop. *)
Definition forecast_entry `{Host} (self : Entity Data) (forecast : V3Dict)
    : result PyExc Forecast :=
  match _get_cc_value_str forecast CC_V3_ATTR_TIMESTAMP with
  | None => Raise TypeError
  | Some timestamp =>
  let forecast_dt := parse_datetime timestamp in
  let use_datetime := true in
  let condition := _get_cc_value_str forecast CC_V3_ATTR_CONDITION in
  let precipitation := _get_cc_value forecast CC_V3_ATTR_PRECIPITATION in
  let precipitation_probability :=
    _get_cc_value forecast CC_V3_ATTR_PRECIPITATION_PROBABILITY in
  let temp := _get_cc_value forecast CC_V3_ATTR_TEMPERATURE in
  let temp_low : option Qc := None in
  let wind_direction := _get_cc_value forecast CC_V3_ATTR_WIND_DIRECTION in
  let wind_speed := _get_cc_value forecast CC_V3_ATTR_WIND_SPEED in
  match
    match forecast_type self with
    | DAILY =>
        let forecast_dt := Some (start_of_local_day forecast_dt) in
        let precipitation := _get_cc_value forecast CC_V3_ATTR_PRECIPITATION_DAILY in
        match v3_getitem forecast CC_V3_ATTR_TEMPERATURE with
        | None => Raise KeyError
        | Some items =>
            Ok (false, forecast_dt, precipitation,
                next_value (fun item => _get_cc_value item CC_V3_ATTR_TEMPERATURE_HIGH)
                  "max" items temp,
                next_value (fun item => _get_cc_value item CC_V3_ATTR_TEMPERATURE_LOW)
                  "min" items temp_low)
        end
    | NOWCAST =>
        if truthy precipitation then
          match CONF_TIMESTEP self with
          | Some timestep =>
              Ok (use_datetime, forecast_dt,
                  fmap (M:=option) (fun p => p / Zc 60 * Zc timestep)%Qc precipitation,
                  temp, temp_low)
          | None => Raise KeyError
          end
        else Ok (use_datetime, forecast_dt, precipitation, temp, temp_low)
    | HOURLY => Ok (use_datetime, forecast_dt, precipitation, temp, temp_low)
    end
  with
  | Raise e => Raise e
  | Ok (use_datetime, forecast_dt, precipitation, temp, temp_low) =>
      BaseClimaCellWeatherEntity._forecast_dict _translate_condition self
        forecast_dt use_datetime condition precipitation
        precipitation_probability temp temp_low wind_direction wind_speed
  end
  end.

Fixpoint forecast_loop `{Host} (self : Entity Data) (raw_forecasts : list V3Dict)
    (forecasts : list Forecast) : result PyExc (list Forecast) :=
  match raw_forecasts with
  | [] => Ok forecasts
  | forecast :: rest =>
      match forecast_entry self forecast with
      | Raise e => Raise e
      | Ok entry => forecast_loop self rest (forecasts ++ [entry])%list
      end
  end.

Definition raw_forecasts `{Host} (self : Entity Data) : option (list V3Dict) :=
  FORECASTS (coordinator_data self) ≫= (fun by_type => by_type (forecast_type self)).

Definition forecast `{Host} (self : Entity Data) : result PyExc (option (list Forecast)) :=
  match raw_forecasts self with
  | None | Some [] => Ok None
  | Some raw => Some <$> forecast_loop self raw []
  end.

End ClimaCellV3WeatherEntity.

(** [async_setup_entry]: the entities handed to the host, each by its
    class, its forecast type and the API version it was made for. *)
Inductive ApiClass := ClimaCellV3WeatherEntityClass | ClimaCellWeatherEntityClass.

Record NewEntity := {
  new_class : ApiClass;
  new_forecast_type : ForecastType;
  new_api_version : Z;
}.

Definition async_setup_entry (api_version : Z) : list NewEntity :=
  let api_class :=
    if (api_version =? 3)%Z
    then ClimaCellV3WeatherEntityClass
    else ClimaCellWeatherEntityClass in
  let entities :=
    List.map (fun forecast_type =>
                {| new_class := api_class;
                   new_forecast_type := forecast_type;
                   new_api_version := api_version |})
             [DAILY; HOURLY; NOWCAST] in
  entities.

(** *** Vocabulary of the properties *)

(** The conversions the entities apply, by the units they name. *)
Definition miles_to_kilometers `{Host} (v : Qc) : Qc :=
  distance_convert v LENGTH_MILES LENGTH_KILOMETERS.

Definition inhg_to_hpa `{Host} (v : Qc) : Qc :=
  pressure_convert v PRESSURE_INHG PRESSURE_HPA.

(** Inches to feet, feet to metres by the host's converter, metres to
    millimetres. *)
Definition inches_to_millimeters `{Host} (p : Qc) : Qc :=
  (distance_convert (p / Zc 12) LENGTH_FEET LENGTH_METERS * Zc 1000)%Qc.

(** A reading at the attribute boundary: converted when the unit system is
    metric, as the vendor gave it otherwise; no reading stays no reading. *)
Definition at_boundary (metric : bool) (convert : Qc -> Qc) (x : option Qc) : option Qc :=
  if metric then convert <$> x else x.

(** The same entity under another unit system. *)
Definition with_units {Data} (metric : bool) (self : Entity Data) : Entity Data :=
  {| is_metric := metric;
     coordinator_data := coordinator_data self;
     forecast_type := forecast_type self;
     CONF_TIMESTEP := CONF_TIMESTEP self |}.

(** The v4 payload entry at position [i] has a timestamp whose date is
    earlier than, respectively not earlier than, the UTC date read when the
    loop looks at it. *)
Definition past `{Host} (raw : list ClimaCellWeatherEntity.RawForecast) (i : nat) : Prop :=
  exists f dt,
    raw !! i = Some f /\
    parse_datetime (ClimaCellWeatherEntity.CC_ATTR_TIMESTAMP f) = Some dt /\
    date_lt (dt_date dt) (dt_date (utcnow i)) = true.




(** Two forecasts that agree on everything but the two readings the unit
    system touches. *)
Definition same_but_units (a b : Forecast) : Prop :=
  ATTR_FORECAST_TIME a = ATTR_FORECAST_TIME b
  /\ ATTR_FORECAST_CONDITION a = ATTR_FORECAST_CONDITION b
  /\ ATTR_FORECAST_PRECIPITATION_PROBABILITY a = ATTR_FORECAST_PRECIPITATION_PROBABILITY b
  /\ ATTR_FORECAST_TEMP a = ATTR_FORECAST_TEMP b
  /\ ATTR_FORECAST_TEMP_LOW a = ATTR_FORECAST_TEMP_LOW b
  /\ ATTR_FORECAST_WIND_BEARING a = ATTR_FORECAST_WIND_BEARING b.

(** The v4 entity with another payload for its forecast type. *)
Definition with_payload (self : Entity ClimaCellWeatherEntity.Data)
    (raw : list ClimaCellWeatherEntity.RawForecast)
    : Entity ClimaCellWeatherEntity.Data :=
  {| is_metric := is_metric self;
     coordinator_data :=
       {| ClimaCellWeatherEntity.CURRENT :=
            ClimaCellWeatherEntity.CURRENT (coordinator_data self);
          ClimaCellWeatherEntity.FORECASTS := Some (fun _ => Some raw) |};
     forecast_type := forecast_type self;
     CONF_TIMESTEP := CONF_TIMESTEP self |}.

(** A payload entry with other values under the same timestamp. *)
Definition with_values (f : ClimaCellWeatherEntity.RawForecast)
    (values : ClimaCellWeatherEntity.Values) : ClimaCellWeatherEntity.RawForecast :=
  {| ClimaCellWeatherEntity.CC_ATTR_TIMESTAMP := ClimaCellWeatherEntity.CC_ATTR_TIMESTAMP f;
     ClimaCellWeatherEntity.values := values |}.

(** The amount of precipitation a forecast of the given type reports for
    the vendor's hourly rate. *)
Definition precipitation_amount (t : ForecastType) (timestep : Z) (rate : Qc) : Qc :=
  match t with
  | DAILY => (rate * Zc 24)%Qc
  | HOURLY => rate
  | NOWCAST => (rate / Zc 60 * Zc timestep)%Qc
  end.

(** Two outcomes of a forecast property that raise the same exception, or
    are both [None], or hold forecasts that agree pairwise up to units. *)
Definition agree_up_to_units (a b : result PyExc (option (list Forecast))) : Prop :=
  match a, b with
  | Ok (Some l1), Ok (Some l2) => Forall2 same_but_units l1 l2
  | Ok None, Ok None => True
  | Raise e1, Raise e2 => e1 = e2
  | _, _ => False
  end.

End climacell.

(** ** [zwave_js/const.py]: the constants of the Z-Wave JS integration *)

Module zwave_js.

Definition DOMAIN := "zwave_js".
Definition NAME := "Z-Wave JS".
Definition PLATFORMS := ["light"; "sensor"].

Definition DATA_CLIENT := "client".
Definition DATA_UNSUBSCRIBE := "unsubs".

(** What a name of a module can be bound to. *)
Inductive PyObject :=
| PyStr (s : string)
| PyStrList (l : list string)
| PyFunction (name : string)
| PyClass (name : string).

(** The module's namespace: every name its top level binds, in order. *)
Definition namespace : list (string * PyObject) :=
  [ ("DOMAIN", PyStr DOMAIN);
    ("NAME", PyStr NAME);
    ("PLATFORMS", PyStrList PLATFORMS);
    ("DATA_CLIENT", PyStr DATA_CLIENT);
    ("DATA_UNSUBSCRIBE", PyStr DATA_UNSUBSCRIBE) ].

(** A static declaration: text or a list of text, nothing that can run. *)
Definition is_static (o : PyObject) : bool :=
  match o with
  | PyStr _ | PyStrList _ => true
  | PyFunction _ | PyClass _ => false
  end.

End zwave_js.

(** ** Concrete hosts and inputs

    Stand-ins for the host's helpers and the inputs on which the
    properties below are exercised. *)

Module Sample.

Module geo.
Import geo_location.

(** A zone test in the style of the host's: it raises without a zone or
    without a position, and otherwise compares the position with the
    zone's centre. *)
Definition same_position (a b : State) : result string bool :=
  match attributes a !! "latitude", attributes a !! "longitude",
        attributes b !! "latitude", attributes b !! "longitude" with
  | Some (VNum la), Some (VNum lo), Some (VNum la'), Some (VNum lo') =>
      Ok (Qeq_bool la la' && Qeq_bool lo lo')
  | _, _, _, _ => Raise "no position"
  end.

Definition zone_test (hass : Hass string nat) (zone_state : option State)
    (s : State) : result string bool :=
  match zone_state with
  | None => Raise "no zone specified"
  | Some z => same_position z s
  end.

Definition at_position (id src : string) (la lo : Z) : State :=
  {| entity_id := id;
     state := "0";
     attributes := <["source" := VStr src]>
                   (<["latitude" := VNum (Q2Qc (inject_Z la))]>
                   (<["longitude" := VNum (Q2Qc (inject_Z lo))]> ∅)) |}.

Definition home : State := at_position "zone.home" "zone" 52 4.
Definition strike_inside : State := at_position "geo_location.strike" "Lightning" 52 4.
Definition strike_outside : State := at_position "geo_location.strike" "Lightning" 10 10.

Definition hass0 : Hass string nat :=
  {| states := <["zone.home" := home]> ∅; jobs_run := [] |}.

Definition config_lightning : Config :=
  {| CONF_SOURCE := "Lightning"; CONF_ZONE := "zone.home"; CONF_EVENT := "enter" |}.

(** A strike appears inside the zone. *)
Definition strike_appears : Event nat :=
  {| data_entity_id := Some "geo_location.strike";
     old_state := None;
     new_state := Some strike_inside;
     context := 7%nat |}.

(** A strike moves from outside the zone into it. *)
Definition strike_enters : Event nat :=
  {| data_entity_id := Some "geo_location.strike";
     old_state := Some strike_outside;
     new_state := Some strike_inside;
     context := 8%nat |}.

(** Strikes of a source written in lower case, as the trigger compares it. *)
Definition bolt_inside : State := at_position "geo_location.bolt" "lightning" 52 4.
Definition bolt_outside : State := at_position "geo_location.bolt" "lightning" 10 10.

Definition config_leave : Config :=
  {| CONF_SOURCE := "LIGHTNING"; CONF_ZONE := "zone.home"; CONF_EVENT := "leave" |}.

Definition bolt_enters : Event nat :=
  {| data_entity_id := Some "geo_location.bolt";
     old_state := Some bolt_outside;
     new_state := Some bolt_inside;
     context := 9%nat |}.

Definition bolt_appears : Event nat :=
  {| data_entity_id := Some "geo_location.bolt";
     old_state := None;
     new_state := Some bolt_inside;
     context := 10%nat |}.

Definition bolt_vanishes : Event nat :=
  {| data_entity_id := Some "geo_location.bolt";
     old_state := Some bolt_inside;
     new_state := None;
     context := 11%nat |}.

(** A host in which the zone has been removed. *)
Definition hass_without_zone : Hass string nat :=
  {| states := ∅; jobs_run := [] |}.

End geo.

Module alarm.
Import ialarm.

Definition probe_answers : string -> Z -> result PyExc string :=
  fun _ _ => Ok "a0:b1:c2:d3:e4:f5".
Definition probe_refused : string -> Z -> result PyExc string :=
  fun _ _ => Raise (ConnectionError "ConnectionRefusedError").
Definition probe_breaks : string -> Z -> result PyExc string :=
  fun _ _ => Raise (OtherException "ValueError").

Definition panel : UserInput := {| CONF_HOST := "192.168.1.20"; CONF_PORT := 18034 |}.

Definition fresh : FlowState := {| unique_id := None; logged := [] |}.

Definition other_panel : ConfigEntry :=
  {| entry_unique_id := Some "00:11:22:33:44:55";
     entry_title := "192.168.1.9";
     entry_data := {| CONF_HOST := "192.168.1.9"; CONF_PORT := 18034 |} |}.



End alarm.

Module weather.
Import climacell.

(** A timestamp that remembers its text, with the date and the hour read
    off a text of the shape [YYYY-MM-DDTHH...]. *)
Record Stamp := { stamp_text : string; stamp_date : Date; stamp_hour : Z }.

Definition digit (c : ascii) : option Z :=
  let n := Z.of_nat (nat_of_ascii c) in
  if (48 <=? n)%Z && (n <=? 57)%Z then Some (n - 48)%Z else None.

Fixpoint number (s : string) (acc : Z) : option Z :=
  match s with
  | EmptyString => Some acc
  | String c s' =>
      match digit c with
      | Some d => number s' (10 * acc + d)%Z
      | None => None
      end
  end.

Definition parse_stamp (s : string) : option Stamp :=
  if (String.length s <? 13)%nat then None
  else
    match number (substring 0 4 s) 0, number (substring 5 2 s) 0,
          number (substring 8 2 s) 0, number (substring 11 2 s) 0 with
    | Some y, Some m, Some d, Some h =>
        Some {| stamp_text := s;
                stamp_date := {| year := y; month := m; day := d |};
                stamp_hour := h |}
    | _, _, _, _ => None
    end.

Definition noon_10_april : Stamp :=
  {| stamp_text := "2021-04-10T12:00:00+00:00";
     stamp_date := {| year := 2021; month := 4; day := 10 |};
     stamp_hour := 12 |}.

Definition start_of_day (dt : option Stamp) : Stamp :=
  let d := match dt with Some d => d | None => noon_10_april end in
  {| stamp_text := substring 0 10 (stamp_text d) ++ "T00:00:00";
     stamp_date := stamp_date d;
     stamp_hour := 0 |}.

Definition daylight (dt : option Stamp) : bool :=
  match dt with
  | Some d => (6 <=? stamp_hour d)%Z && (stamp_hour d <? 18)%Z
  | None => true
  end.

(** Linear converters, through metres and through pascals. *)
Definition metres (u : LengthUnit) : Qc :=
  match u with
  | LENGTH_FEET => Q2Qc (381 # 1250)
  | LENGTH_KILOMETERS => Zc 1000
  | LENGTH_METERS => Zc 1
  | LENGTH_MILES => Q2Qc (201168 # 125)
  end.

Definition pascals (u : PressureUnit) : Qc :=
  match u with
  | PRESSURE_HPA => Zc 100
  | PRESSURE_INHG => Q2Qc (3386389 # 1000)
  end.

Definition convert_length (v : Qc) (a b : LengthUnit) : Qc := (v * metres a / metres b)%Qc.
Definition convert_pressure (v : Qc) (a b : PressureUnit) : Qc := (v * pascals a / pascals b)%Qc.

Definition weather_codes : list Z :=
  [0; 1000; 1001; 1100; 1101; 1102; 2000; 4000; 4001; 5000; 8000]%Z.

Definition weather_code (n : Z) : option Z :=
  if bool_decide (n ∈ weather_codes) then Some n else None.

Definition precipitation_name (n : Z) : option string :=
  match n with
  | 0%Z => Some "NONE"
  | 1%Z => Some "RAIN"
  | 2%Z => Some "SNOW"
  | 3%Z => Some "FREEZING_RAIN"
  | 4%Z => Some "ICE_PELLETS"
  | _ => None
  end.

Definition clear_conditions : gmap string string :=
  <["night" := "clear-night"]> (<["day" := "sunny"]> ∅).

Definition conditions : gmap Z string :=
  <[1001%Z := "cloudy"]> (<[1101%Z := "partlycloudy"]> (<[1102%Z := "cloudy"]>
  (<[2000%Z := "fog"]> (<[4000%Z := "rainy"]> (<[4001%Z := "rainy"]>
  (<[5000%Z := "snowy"]> (<[8000%Z := "lightning"]> ∅))))))).

Definition conditions_v3 : gmap string string :=
  <["cloudy" := "cloudy"]> (<["partly_cloudy" := "partlycloudy"]>
  (<["fog" := "fog"]> (<["drizzle" := "rainy"]> (<["rain" := "rainy"]>
  (<["snow" := "snowy"]> (<["tstorm" := "lightning"]> ∅)))))).

Definition max_forecasts (t : ForecastType) : Z :=
  match t with DAILY => 14 | HOURLY => 24 | NOWCAST => 30 end.

(** A v3 payload dict: the numbers and the texts it holds under the keys
    read, the other keys present in it, and the items listed under the
    temperature key when there is such a list. *)
Record V3Item := { item_nums : list (V3Attr * Qc); item_keys : list string }.

Record V3 := {
  v3_nums : list (V3Attr * Qc);
  v3_strs : list (V3Attr * string);
  v3_keys : list string;
  v3_temperatures : option (list V3Item);
}.

#[global] Instance V3Attr_eq_dec : EqDecision V3Attr.
Proof. solve_decision. Defined.

Fixpoint assoc {A} (key : V3Attr) (l : list (V3Attr * A)) : option A :=
  match l with
  | [] => None
  | (k, v) :: l' => if bool_decide (k = key) then Some v else assoc key l'
  end.

Definition v3_num (d : V3) (key : V3Attr) : option Qc := assoc key (v3_nums d).
Definition v3_str (d : V3) (key : V3Attr) : option string := assoc key (v3_strs d).
Definition v3_of_item (i : V3Item) : V3 :=
  {| v3_nums := item_nums i; v3_strs := []; v3_keys := item_keys i;
     v3_temperatures := None |}.
Definition v3_list (d : V3) (key : V3Attr) : option (list V3) :=
  match key with
  | CC_V3_ATTR_TEMPERATURE => List.map v3_of_item <$> v3_temperatures d
  | _ => None
  end.
Definition v3_in (key : string) (d : V3) : bool :=
  existsb (String.eqb key) (v3_keys d).

#[global] Instance host : Host := {|
  datetime := Stamp;
  dt_date := stamp_date;
  isoformat := stamp_text;
  parse_datetime := parse_stamp;
  start_of_local_day := start_of_day;
  utcnow := fun _ => noon_10_april;
  is_up := daylight;
  distance_convert := convert_length;
  pressure_convert := convert_pressure;
  WeatherCodeT := Z;
  WeatherCode := weather_code;
  CLEAR := 1000%Z;
  MOSTLY_CLEAR := 1100%Z;
  PrecipitationType_name := precipitation_name;
  CLEAR_CONDITIONS := clear_conditions;
  CONDITIONS := conditions;
  CONDITIONS_V3 := conditions_v3;
  MAX_FORECASTS := max_forecasts;
  V3Dict := V3;
  _get_cc_value := v3_num;
  _get_cc_value_str := v3_str;
  v3_getitem := v3_list;
  v3_has_key := v3_in;
|}.

(** v4 payloads. *)
Definition no_values : ClimaCellWeatherEntity.Values :=
  {| ClimaCellWeatherEntity.CC_ATTR_TEMPERATURE := None;
     ClimaCellWeatherEntity.CC_ATTR_TEMPERATURE_HIGH := None;
     ClimaCellWeatherEntity.CC_ATTR_TEMPERATURE_LOW := None;
     ClimaCellWeatherEntity.CC_ATTR_PRESSURE := None;
     ClimaCellWeatherEntity.CC_ATTR_HUMIDITY := None;
     ClimaCellWeatherEntity.CC_ATTR_WIND_GUST := None;
     ClimaCellWeatherEntity.CC_ATTR_CLOUD_COVER := None;
     ClimaCellWeatherEntity.CC_ATTR_PRECIPITATION_TYPE := None;
     ClimaCellWeatherEntity.CC_ATTR_WIND_SPEED := None;
     ClimaCellWeatherEntity.CC_ATTR_WIND_DIRECTION := None;
     ClimaCellWeatherEntity.CC_ATTR_OZONE := None;
     ClimaCellWeatherEntity.CC_ATTR_CONDITION := None;
     ClimaCellWeatherEntity.CC_ATTR_VISIBILITY := None;
     ClimaCellWeatherEntity.CC_ATTR_PRECIPITATION := None;
     ClimaCellWeatherEntity.CC_ATTR_PRECIPITATION_PROBABILITY := None |}.

(** Current conditions: rain, wind 10 mph, gusts 20 mph, 30 inHg,
    visibility 5 mi. *)
Definition rainy_now : ClimaCellWeatherEntity.Values :=
  {| ClimaCellWeatherEntity.CC_ATTR_TEMPERATURE := Some (Zc 50);
     ClimaCellWeatherEntity.CC_ATTR_TEMPERATURE_HIGH := None;
     ClimaCellWeatherEntity.CC_ATTR_TEMPERATURE_LOW := None;
     ClimaCellWeatherEntity.CC_ATTR_PRESSURE := Some (Zc 30);
     ClimaCellWeatherEntity.CC_ATTR_HUMIDITY := Some (Zc 80);
     ClimaCellWeatherEntity.CC_ATTR_WIND_GUST := Some (Zc 20);
     ClimaCellWeatherEntity.CC_ATTR_CLOUD_COVER := Some (Zc 100);
     ClimaCellWeatherEntity.CC_ATTR_PRECIPITATION_TYPE := Some 1%Z;
     ClimaCellWeatherEntity.CC_ATTR_WIND_SPEED := Some (Zc 10);
     ClimaCellWeatherEntity.CC_ATTR_WIND_DIRECTION := Some (Zc 270);
     ClimaCellWeatherEntity.CC_ATTR_OZONE := None;
     ClimaCellWeatherEntity.CC_ATTR_CONDITION := Some 4001%Z;
     ClimaCellWeatherEntity.CC_ATTR_VISIBILITY := Some (Zc 5);
     ClimaCellWeatherEntity.CC_ATTR_PRECIPITATION := Some (Zc 0);
     ClimaCellWeatherEntity.CC_ATTR_PRECIPITATION_PROBABILITY := None |}.

(** Calm: every reading is zero. *)
Definition calm_now : ClimaCellWeatherEntity.Values :=
  {| ClimaCellWeatherEntity.CC_ATTR_TEMPERATURE := Some (Zc 50);
     ClimaCellWeatherEntity.CC_ATTR_TEMPERATURE_HIGH := None;
     ClimaCellWeatherEntity.CC_ATTR_TEMPERATURE_LOW := None;
     ClimaCellWeatherEntity.CC_ATTR_PRESSURE := Some 0%Qc;
     ClimaCellWeatherEntity.CC_ATTR_HUMIDITY := Some (Zc 80);
     ClimaCellWeatherEntity.CC_ATTR_WIND_GUST := Some 0%Qc;
     ClimaCellWeatherEntity.CC_ATTR_CLOUD_COVER := Some 0%Qc;
     ClimaCellWeatherEntity.CC_ATTR_PRECIPITATION_TYPE := Some 0%Z;
     ClimaCellWeatherEntity.CC_ATTR_WIND_SPEED := Some 0%Qc;
     ClimaCellWeatherEntity.CC_ATTR_WIND_DIRECTION := Some 0%Qc;
     ClimaCellWeatherEntity.CC_ATTR_OZONE := None;
     ClimaCellWeatherEntity.CC_ATTR_CONDITION := Some 1000%Z;
     ClimaCellWeatherEntity.CC_ATTR_VISIBILITY := Some 0%Qc;
     ClimaCellWeatherEntity.CC_ATTR_PRECIPITATION := Some 0%Qc;
     ClimaCellWeatherEntity.CC_ATTR_PRECIPITATION_PROBABILITY := None |}.

Definition hour_at (timestamp : string) (code : Z) : ClimaCellWeatherEntity.RawForecast :=
  {| ClimaCellWeatherEntity.CC_ATTR_TIMESTAMP := timestamp;
     ClimaCellWeatherEntity.values :=
       {| ClimaCellWeatherEntity.CC_ATTR_TEMPERATURE := None;
          ClimaCellWeatherEntity.CC_ATTR_TEMPERATURE_HIGH := Some (Zc 55);
          ClimaCellWeatherEntity.CC_ATTR_TEMPERATURE_LOW := None;
          ClimaCellWeatherEntity.CC_ATTR_PRESSURE := None;
          ClimaCellWeatherEntity.CC_ATTR_HUMIDITY := None;
          ClimaCellWeatherEntity.CC_ATTR_WIND_GUST := None;
          ClimaCellWeatherEntity.CC_ATTR_CLOUD_COVER := None;
          ClimaCellWeatherEntity.CC_ATTR_PRECIPITATION_TYPE := None;
          ClimaCellWeatherEntity.CC_ATTR_WIND_SPEED := Some (Zc 10);
          ClimaCellWeatherEntity.CC_ATTR_WIND_DIRECTION := None;
          ClimaCellWeatherEntity.CC_ATTR_OZONE := None;
          ClimaCellWeatherEntity.CC_ATTR_CONDITION := Some code;
          ClimaCellWeatherEntity.CC_ATTR_VISIBILITY := None;
          ClimaCellWeatherEntity.CC_ATTR_PRECIPITATION := Some (Zc 1);
          ClimaCellWeatherEntity.CC_ATTR_PRECIPITATION_PROBABILITY := None |} |}.

(** An hourly payload: one hour of yesterday, then two of today. *)
Definition hourly_payload : list ClimaCellWeatherEntity.RawForecast :=
  [ hour_at "2021-04-09T23:00:00+00:00" 4001;
    hour_at "2021-04-10T12:00:00+00:00" 1000;
    hour_at "2021-04-10T22:00:00+00:00" 1000 ].

Definition entity_v4 (metric : bool) (now : ClimaCellWeatherEntity.Values)
    : Entity ClimaCellWeatherEntity.Data :=
  {| is_metric := metric;
     coordinator_data :=
       {| ClimaCellWeatherEntity.CURRENT := Some now;
          ClimaCellWeatherEntity.FORECASTS :=
            Some (fun t => match t with HOURLY => Some hourly_payload | _ => None end) |};
     forecast_type := HOURLY;
     CONF_TIMESTEP := Some 5%Z |}.

(** v3 payloads. *)
Definition v3_hour (timestamp condition : string) : V3 :=
  {| v3_nums := [(CC_V3_ATTR_TEMPERATURE, Zc 55); (CC_V3_ATTR_WIND_SPEED, Zc 10)];
     v3_strs := [(CC_V3_ATTR_TIMESTAMP, timestamp); (CC_V3_ATTR_CONDITION, condition)];
     v3_keys := [];
     v3_temperatures := None |}.

Definition v3_now (condition : string) : V3 :=
  {| v3_nums := [(CC_V3_ATTR_WIND_SPEED, Zc 10); (CC_V3_ATTR_PRESSURE, Zc 30)];
     v3_strs := [(CC_V3_ATTR_CONDITION, condition)];
     v3_keys := [];
     v3_temperatures := None |}.

(** An hourly payload whose only entry lies nine days back. *)
Definition entity_v3 (condition : string) : Entity ClimaCellV3WeatherEntity.Data :=
  {| is_metric := false;
     coordinator_data :=
       {| ClimaCellV3WeatherEntity.CURRENT := Some (v3_now condition);
          ClimaCellV3WeatherEntity.FORECASTS :=
            Some (fun t => match t with
                           | HOURLY => Some [v3_hour "2021-04-01T09:00:00+00:00" "rain"]
                           | _ => None
                           end) |};
     forecast_type := HOURLY;
     CONF_TIMESTEP := None |}.

(** More payloads: entries of yesterday only, an entry of yesterday whose
    code is no weather code, and an entry whose timestamp is no timestamp. *)
Definition stale_payload : list ClimaCellWeatherEntity.RawForecast :=
  [ hour_at "2021-04-09T22:00:00+00:00" 4001;
    hour_at "2021-04-09T23:00:00+00:00" 1000 ].

Definition entity_v4_with (metric : bool) (t : ForecastType) (timestep : option Z)
    (payload : list ClimaCellWeatherEntity.RawForecast)
    : Entity ClimaCellWeatherEntity.Data :=
  {| is_metric := metric;
     coordinator_data :=
       {| ClimaCellWeatherEntity.CURRENT := None;
          ClimaCellWeatherEntity.FORECASTS := Some (fun _ => Some payload) |};
     forecast_type := t;
     CONF_TIMESTEP := timestep |}.

Definition v3_day (timestamp condition : string) : V3 :=
  {| v3_nums := [(CC_V3_ATTR_PRECIPITATION_DAILY, Zc 2)];
     v3_strs := [(CC_V3_ATTR_TIMESTAMP, timestamp); (CC_V3_ATTR_CONDITION, condition)];
     v3_keys := [];
     v3_temperatures :=
       Some [ {| item_nums := [(CC_V3_ATTR_TEMPERATURE_LOW, Zc 40)];
                 item_keys := ["min"] |};
              {| item_nums := [(CC_V3_ATTR_TEMPERATURE_HIGH, Zc 60)];
                 item_keys := ["max"] |} ] |}.

Definition entity_v3_with (t : ForecastType) (timestep : option Z) (payload : list V3)
    : Entity ClimaCellV3WeatherEntity.Data :=
  {| is_metric := false;
     coordinator_data :=
       {| ClimaCellV3WeatherEntity.CURRENT := None;
          ClimaCellV3WeatherEntity.FORECASTS := Some (fun _ => Some payload) |};
     forecast_type := t;
     CONF_TIMESTEP := timestep |}.

(** Current conditions whose precipitation type is no member of the
    vendor's enum, and a v3 entry with a rate of precipitation. *)
Definition odd_precipitation_now : ClimaCellWeatherEntity.Values :=
  {| ClimaCellWeatherEntity.CC_ATTR_TEMPERATURE := Some (Zc 50);
     ClimaCellWeatherEntity.CC_ATTR_TEMPERATURE_HIGH := None;
     ClimaCellWeatherEntity.CC_ATTR_TEMPERATURE_LOW := None;
     ClimaCellWeatherEntity.CC_ATTR_PRESSURE := None;
     ClimaCellWeatherEntity.CC_ATTR_HUMIDITY := None;
     ClimaCellWeatherEntity.CC_ATTR_WIND_GUST := Some (Zc 20);
     ClimaCellWeatherEntity.CC_ATTR_CLOUD_COVER := Some (Zc 100);
     ClimaCellWeatherEntity.CC_ATTR_PRECIPITATION_TYPE := Some 7%Z;
     ClimaCellWeatherEntity.CC_ATTR_WIND_SPEED := None;
     ClimaCellWeatherEntity.CC_ATTR_WIND_DIRECTION := None;
     ClimaCellWeatherEntity.CC_ATTR_OZONE := None;
     ClimaCellWeatherEntity.CC_ATTR_CONDITION := Some 4001%Z;
     ClimaCellWeatherEntity.CC_ATTR_VISIBILITY := None;
     ClimaCellWeatherEntity.CC_ATTR_PRECIPITATION := None;
     ClimaCellWeatherEntity.CC_ATTR_PRECIPITATION_PROBABILITY := None |}.


End weather.

End Sample.

(** * Properties *)

(** ** Facts about text *)

Section TextFacts.
Import Text.

Lemma lower_ascii_not_upper c : is_upper (lower_ascii c) = false.
Proof. destruct c as [[] [] [] [] [] [] [] []]; vm_compute; reflexivity. Qed.

Lemma lower_ascii_idem c : lower_ascii (lower_ascii c) = lower_ascii c.
Proof. unfold lower_ascii at 1. now rewrite lower_ascii_not_upper. Qed.

Lemma lower_no_upper s : has_upper (lower s) = false.
Proof.
  induction s as [|c s IH]; simpl; [reflexivity|].
  now rewrite lower_ascii_not_upper, IH.
Qed.

Lemma lower_idem s : lower (lower s) = lower s.
Proof.
  induction s as [|c s IH]; simpl; [reflexivity|].
  now rewrite lower_ascii_idem, IH.
Qed.


Lemma no_upper_lower_id s : has_upper s = false -> lower s = s.
Proof.
  induction s as [|c s IH]; simpl; [reflexivity|].
  intros [Hc Hs]%orb_false_iff. unfold lower_ascii. rewrite Hc.
  now rewrite IH.
Qed.

Lemma prefix_lower sub s :
  String.prefix sub s = true -> String.prefix (lower sub) (lower s) = true.
Proof.
  revert s. induction sub as [|a sub IH]; intros [|b s]; simpl; try easy.
  destruct (ascii_dec a b) as [->|]; [|discriminate].
  intros H. destruct (ascii_dec _ _); [now apply IH | congruence].
Qed.

Lemma contains_lower sub s :
  contains sub s = true -> contains (lower sub) (lower s) = true.
Proof.
  induction s as [|b s IH]; simpl.
  - rewrite !orb_false_r. apply (prefix_lower sub "").
  - intros [H|H]%orb_true_iff; apply orb_true_iff.
    + left. apply (prefix_lower sub (String b s)), H.
    + right. now apply IH.
Qed.

Lemma contains_nonempty sub s :
  sub <> "" -> contains sub s = true -> s <> "".
Proof.
  intros Hsub H ->. simpl in H. destruct sub; [congruence | discriminate].
Qed.

End TextFacts.

(** ** The geolocation trigger *)

Section GeoLocationFacts.
Import Text geo_location.

Variables (Action EventContext Exc : Type).
Variable condition_zone :
  Hass Action EventContext -> option State -> State -> result Exc bool.

Lemma source_match_spec st src :
  source_match st src = true <-> has_source st src.
Proof.
  unfold source_match, has_source, py_eq_str. split.
  - destruct st as [s|]; [|discriminate].
    destruct (attributes s !! "source") as [[| | |t]|] eqn:E; try discriminate.
    intros ->%String.eqb_eq. eauto.
  - intros (s & -> & ->). apply String.eqb_refl.
Qed.

Abbreviation listener := (state_change_listener condition_zone).

(** The two zone tests of the listener, as it evaluates them. *)
Lemma zone_test_true (env : Attached Action) hass st :
  match st with
  | Some s => condition_zone hass (states hass !! zone_entity_id env) s
  | None => Ok false
  end = Ok true <-> in_zone condition_zone env hass st.
Proof.
  unfold in_zone. split.
  - destruct st as [s|]; [eauto | discriminate].
  - now intros (s & -> & ->).
Qed.

Lemma zone_test_false (env : Attached Action) hass st :
  match st with
  | Some s => condition_zone hass (states hass !! zone_entity_id env) s
  | None => Ok false
  end = Ok false <-> not_in_zone condition_zone env hass st.
Proof.
  unfold not_in_zone. split.
  - destruct st as [s|]; eauto.
  - intros [->|(s & -> & ->)]; reflexivity.
Qed.

Lemma in_zone_not_in_zone (env : Attached Action) hass st :
  in_zone condition_zone env hass st ->
  not_in_zone condition_zone env hass st -> False.
Proof.
  intros (s & -> & H) [?|(s' & [= <-] & H')]; congruence.
Qed.

Lemma append_one_neq {A} (l : list A) x : l <> (l ++ [x])%list.
Proof.
  intros H. apply (f_equal (@length A)) in H.
  rewrite length_app in H. simpl in H. lia.
Qed.

(** The listener, unfolded once: it either returns the host untouched,
    raises out of a zone test, or asks for exactly one run. *)
Lemma listener_cases (env : Attached Action) hass event :
  listener env hass event = Ok hass
  \/ raises (listener env hass event)
  \/ action_invoked condition_zone env hass event.
Proof.
  unfold action_invoked, raises, state_change_listener.
  destruct (negb _ && negb _); [now left|].
  destruct (match old_state event with Some _ => _ | None => _ end)
    as [fm|e]; simpl; [|right; left; eauto].
  destruct (match new_state event with Some _ => _ | None => _ end)
    as [tm|e]; simpl; [|right; left; eauto].
  destruct (_ || _); [|now left].
  right; right. eexists _, _. repeat split; reflexivity.
Qed.

Lemma listener_invoked_iff (env : Attached Action) hass event :
  action_invoked condition_zone env hass event <->
  (has_source (old_state event) (source env)
   \/ has_source (new_state event) (source env))
  /\ zone_transition condition_zone env hass event.
Proof.
  rewrite <- !source_match_spec.
  unfold zone_transition. rewrite <- !zone_test_true, <- !zone_test_false.
  unfold action_invoked, state_change_listener.
  destruct (source_match (old_state event) (source env)) eqn:Ho,
           (source_match (new_state event) (source env)) eqn:Hn; simpl.
  4: { split.
       - intros (h' & r & [= <-] & _ & Hj & _). now apply append_one_neq in Hj.
       - intros [[?|?] _]; discriminate. }
  all: destruct (match old_state event with Some _ => _ | None => _ end)
         as [fm|e]; simpl;
       [ destruct (match new_state event with Some _ => _ | None => _ end)
           as [tm|e']; simpl | ].
  all: try (split; [ intros (h' & r & [=] & _)
                   | intros [_ [(_ & ? & ?)|(_ & ? & ?)]]; discriminate ]).
  all: destruct (String.eqb_spec (trigger_event env) EVENT_ENTER) as [Ee|Ee],
                (String.eqb_spec (trigger_event env) EVENT_LEAVE) as [El|El],
                fm, tm; simpl.
  all: split;
       [ intros (h' & r & Hl & Hs & Hj & _); injection Hl as <-;
         first [ now apply append_one_neq in Hj
               | split; [auto|]; first [ left; now repeat split
                                       | right; now repeat split ] ]
       | intros [_ Hz];
         first [ eexists _, _; repeat split; reflexivity
               | exfalso; destruct Hz as [(? & ? & ?)|(? & ? & ?)]; congruence ] ].
Qed.

(** C1 (as amended). For every event delivered to the listener of an
    attached trigger, the action is run (exactly once more, with the event's
    old and new state) if and only if the old or the new state carries a
    ['source'] attribute equal to the LOWER-CASED configured source, and the
    zone membership changes the way the configured event asks: for ['enter']
    the old state is not in the zone and the new one is, for ['leave'] the
    old state is in the zone and the new one is not.  In every other case
    the listener returns the host untouched or raises out of the zone test. *)
Theorem C1_action_invoked_iff_lowered_source_and_transition
    (config : Config) (action : Action) (info : option (gmap string string))
    (hass : Hass Action EventContext) (event : Event EventContext) :
  (action_invoked condition_zone (async_attach_trigger config action info) hass event
   <->
   (has_source (old_state event) (lower (CONF_SOURCE config))
    \/ has_source (new_state event) (lower (CONF_SOURCE config)))
   /\
   ((CONF_EVENT config = EVENT_ENTER
     /\ not_in_zone condition_zone (async_attach_trigger config action info) hass (old_state event)
     /\ in_zone condition_zone (async_attach_trigger config action info) hass (new_state event))
    \/
    (CONF_EVENT config = EVENT_LEAVE
     /\ in_zone condition_zone (async_attach_trigger config action info) hass (old_state event)
     /\ not_in_zone condition_zone (async_attach_trigger config action info) hass (new_state event))))
  /\
  (action_invoked condition_zone (async_attach_trigger config action info) hass event
   \/ action_skipped condition_zone (async_attach_trigger config action info) hass event
   \/ raises (listener (async_attach_trigger config action info) hass event)).
Proof.
  split.
  - apply (listener_invoked_iff (async_attach_trigger config action info)).
  - destruct (listener_cases (async_attach_trigger config action info) hass event)
      as [H|[H|H]]; auto.
Qed.


End GeoLocationFacts.

(** A trigger configured with source ["Lightning"] and an event whose new
    state has the attribute ['source'] = ["Lightning"] and lies in the zone,
    with no old state: both conditions of C1 hold when read against the
    configured source as written, and the listener returns the host as it
    was, with no run asked for. *)
Lemma C1_counterexample_source_as_configured :
  geo_location.has_source
    (geo_location.new_state Sample.geo.strike_appears)
    (geo_location.CONF_SOURCE Sample.geo.config_lightning)
  /\ geo_location.CONF_EVENT Sample.geo.config_lightning = geo_location.EVENT_ENTER
  /\ geo_location.not_in_zone Sample.geo.zone_test
       (geo_location.async_attach_trigger Sample.geo.config_lightning "notify" None)
       Sample.geo.hass0 (geo_location.old_state Sample.geo.strike_appears)
  /\ geo_location.in_zone Sample.geo.zone_test
       (geo_location.async_attach_trigger Sample.geo.config_lightning "notify" None)
       Sample.geo.hass0 (geo_location.new_state Sample.geo.strike_appears)
  /\ geo_location.state_change_listener Sample.geo.zone_test
       (geo_location.async_attach_trigger Sample.geo.config_lightning "notify" None)
       Sample.geo.hass0 Sample.geo.strike_appears
     = Ok Sample.geo.hass0
  /\ geo_location.jobs_run Sample.geo.hass0 = [].
Proof.
  repeat split.
  - exists Sample.geo.strike_inside. split; reflexivity.
  - now left.
  - exists Sample.geo.strike_inside. split; [reflexivity | now vm_compute].
Qed.


(** ** The iAlarm config flow *)

Section IAlarmFacts.
Import ialarm.

Variable get_mac : string -> Z -> result PyExc string.
Variable entries : list ConfigEntry.

Lemma already_configured_spec uid :
  already_configured entries uid = true <->
  exists e, In e entries /\ entry_unique_id e = Some uid.
Proof.
  unfold already_configured. rewrite existsb_exists. split.
  - intros (e & Hin & He). exists e. split; [exact Hin|].
    destruct (entry_unique_id e) as [u|]; [|discriminate].
    now apply String.eqb_eq in He as ->.
  - intros (e & Hin & He). exists e. split; [exact Hin|].
    rewrite He. apply String.eqb_refl.
Qed.

Lemma singleton_errors_nonempty (err : string) :
  bool_decide (<["base" := err]> (∅ : gmap string string) = ∅) = false.
Proof.
  apply bool_decide_eq_false. apply insert_non_empty.
Qed.

(** An exception outside [Exception] passes both handlers. *)
Lemma step_user_propagates_non_exception st input e :
  get_mac (CONF_HOST input) (CONF_PORT input) = Raise e ->
  is_Exception e = false ->
  async_step_user get_mac entries st (Some input) = (Raise e, st).
Proof.
  intros Hp He. unfold async_step_user, _get_device_mac. rewrite Hp.
  destruct e; try discriminate. reflexivity.
Qed.

(** C2. With user input given, when the MAC-address probe raises a
    [ConnectionError] the step returns the user form with the base error
    ['cannot_connect'] and changes nothing; when it raises any other
    [Exception] the step logs it and returns the user form with the base
    error ['unknown'].  In both cases the flow's unique id is left as it
    was and no config entry is created. *)
Theorem C2_probe_failure_shows_form_again
    (st : FlowState) (input : UserInput) (e : PyExc) :
  get_mac (CONF_HOST input) (CONF_PORT input) = Raise e ->
  is_Exception e = true ->
  unique_id (snd (async_step_user get_mac entries st (Some input))) = unique_id st
  /\ created_entries (fst (async_step_user get_mac entries st (Some input))) = []
  /\ (is_ConnectionError e = true ->
        shows_form_with_base_error
          (fst (async_step_user get_mac entries st (Some input))) "cannot_connect"
        /\ snd (async_step_user get_mac entries st (Some input)) = st)
  /\ (is_ConnectionError e = false ->
        shows_form_with_base_error
          (fst (async_step_user get_mac entries st (Some input))) "unknown"
        /\ logged (snd (async_step_user get_mac entries st (Some input)))
           = (logged st ++ [("Unexpected exception", e)])%list).
Proof.
  intros Hp He. unfold async_step_user, _get_device_mac. rewrite Hp.
  destruct (is_ConnectionError e) eqn:Hc.
  - rewrite singleton_errors_nonempty. simpl.
    split; [reflexivity|]. split; [reflexivity|]. split.
    + intros _. split; reflexivity.
    + discriminate.
  - rewrite He, singleton_errors_nonempty. simpl.
    split; [reflexivity|]. split; [reflexivity|]. split.
    + discriminate.
    + intros _. split; reflexivity.
Qed.

(** C6. When the probe returns a MAC address, the step sets the flow's
    unique id to it; if an entry with that unique id is already configured
    the flow aborts and creates nothing, and otherwise the step creates
    exactly one config entry, titled with the entered host and holding
    exactly the entered user input. *)
Theorem C6_probe_success_sets_unique_id_and_creates_entry
    (st : FlowState) (input : UserInput) (mac : string) :
  get_mac (CONF_HOST input) (CONF_PORT input) = Ok mac ->
  unique_id (snd (async_step_user get_mac entries st (Some input))) = Some mac
  /\ logged (snd (async_step_user get_mac entries st (Some input))) = logged st
  /\ ((exists e, In e entries /\ entry_unique_id e = Some mac) ->
        fst (async_step_user get_mac entries st (Some input))
          = Raise (AbortFlow "already_configured")
        /\ created_entries (fst (async_step_user get_mac entries st (Some input))) = [])
  /\ ((forall e, In e entries -> entry_unique_id e <> Some mac) ->
        fst (async_step_user get_mac entries st (Some input))
          = Ok (CreateEntry (CONF_HOST input) input)
        /\ created_entries (fst (async_step_user get_mac entries st (Some input)))
           = [(CONF_HOST input, input)]).
Proof.
  intros Hp. unfold async_step_user, _get_device_mac. rewrite Hp.
  replace (negb (bool_decide ((∅ : gmap string string) = ∅))) with false
    by (symmetry; apply negb_false_iff, bool_decide_eq_true; reflexivity).
  unfold _abort_if_unique_id_configured. cbn [async_set_unique_id unique_id].
  destruct (already_configured entries mac) eqn:Hc; cbn.
  - apply already_configured_spec in Hc.
    split; [reflexivity|]. split; [reflexivity|]. split.
    + intros _. split; reflexivity.
    + intros Hno. destruct Hc as (e & Hin & He). now destruct (Hno e Hin).
  - assert (Hn : ~ exists e, In e entries /\ entry_unique_id e = Some mac).
    { rewrite <- already_configured_spec. congruence. }
    split; [reflexivity|]. split; [reflexivity|]. split.
    + intros Hex. now destruct Hn.
    + intros _. split; reflexivity.
Qed.

End IAlarmFacts.

Lemma C2_witness_refused_and_broken :
  ialarm.async_step_user Sample.alarm.probe_refused [] Sample.alarm.fresh
    (Some Sample.alarm.panel)
  = (Ok (ialarm.Form "user" ialarm.DATA_SCHEMA (Some {["base" := "cannot_connect"]})),
     Sample.alarm.fresh)
  /\ ialarm.shows_form_with_base_error
       (fst (ialarm.async_step_user Sample.alarm.probe_breaks [] Sample.alarm.fresh
               (Some Sample.alarm.panel))) "unknown".
Proof.
  split.
  - destruct (C2_probe_failure_shows_form_again Sample.alarm.probe_refused []
                Sample.alarm.fresh Sample.alarm.panel
                (ialarm.ConnectionError "ConnectionRefusedError")
                eq_refl eq_refl) as (_ & _ & Hc & _).
    destruct (Hc eq_refl) as [Hf Hs].
    rewrite (surjective_pairing (ialarm.async_step_user _ _ _ _)).
    now rewrite Hf, Hs.
  - destruct (C2_probe_failure_shows_form_again Sample.alarm.probe_breaks []
                Sample.alarm.fresh Sample.alarm.panel
                (ialarm.OtherException "ValueError")
                eq_refl eq_refl) as (_ & _ & _ & Hu).
    exact (proj1 (Hu eq_refl)).
Defined.

Lemma C6_witness_new_panel :
  ialarm.async_step_user Sample.alarm.probe_answers [Sample.alarm.other_panel]
    Sample.alarm.fresh (Some Sample.alarm.panel)
  = (Ok (ialarm.CreateEntry "192.168.1.20" Sample.alarm.panel),
     {| ialarm.unique_id := Some "a0:b1:c2:d3:e4:f5"; ialarm.logged := [] |}).
Proof.
  destruct (C6_probe_success_sets_unique_id_and_creates_entry
              Sample.alarm.probe_answers [Sample.alarm.other_panel]
              Sample.alarm.fresh Sample.alarm.panel "a0:b1:c2:d3:e4:f5" eq_refl)
    as (_ & _ & _ & Hnew).
  assert (Hfree : forall e, In e [Sample.alarm.other_panel] ->
                    ialarm.entry_unique_id e <> Some "a0:b1:c2:d3:e4:f5")
    by (intros e [<-|[]]; discriminate).
  destruct (Hnew Hfree) as [Hr _].
  rewrite (surjective_pairing (ialarm.async_step_user _ _ _ _)), Hr.
  reflexivity.
Defined.

(** ** The ClimaCell weather entities: translating conditions *)

Section ConditionFacts.
Import Text climacell.
Context `{Host}.

Lemma getitem_Some `{Countable K} {V} (table : gmap K V) key v :
  table !! key = Some v -> getitem table key = Ok v.
Proof. unfold getitem. now intros ->. Qed.

Lemma getitem_None `{Countable K} {V} (table : gmap K V) key :
  table !! key = None -> getitem table key = Raise KeyError.
Proof. unfold getitem. now intros ->. Qed.

Lemma clear_lower_contains c :
  contains "clear" c = true -> contains "clear" (lower c) = true.
Proof. intros Hc. apply (contains_lower "clear" c Hc). Qed.

(** How the v3 entity translates a condition that is there. *)
Lemma v3_translate_nonempty c sun :
  c <> "" ->
  ClimaCellV3WeatherEntity._translate_condition (Some c) sun =
  if contains "clear" (lower c) then
    Some <$> getitem CLEAR_CONDITIONS (if sun then "day" else "night")
  else Some <$> getitem CONDITIONS_V3 c.
Proof.
  intros Hc. unfold ClimaCellV3WeatherEntity._translate_condition.
  apply String.eqb_neq in Hc. rewrite Hc. now destruct sun.
Qed.

(** How the v4 entity translates a code that is a member of the enum. *)
Lemma v4_translate_member n w sun :
  WeatherCode n = Some w ->
  ClimaCellWeatherEntity._translate_condition (Some n) sun =
  if bool_decide (w = CLEAR \/ w = MOSTLY_CLEAR) then
    Some <$> getitem CLEAR_CONDITIONS (if sun then "day" else "night")
  else Some <$> getitem CONDITIONS w.
Proof.
  intros Hw. unfold ClimaCellWeatherEntity._translate_condition.
  rewrite Hw. now destruct sun.
Qed.

(** C3. With [day] and [night] the entries of the clear table: for both
    API versions a missing vendor condition ([None], and the empty string
    for v3) translates to [None]; a clear-type condition (a code that is
    [CLEAR] or [MOSTLY_CLEAR] for v4, a string that contains ['clear'] for
    v3) translates to [day] when the sun is up and to [night] when it is
    not; every other known vendor condition translates to its entry in
    the version's table, whatever the sun's position.  The names of the
    v3 table are taken to be lower-case, as the vendor's are. *)
Theorem C3_clear_follows_the_sun_others_follow_the_table (day night : string) :
  CLEAR_CONDITIONS !! "day" = Some day ->
  CLEAR_CONDITIONS !! "night" = Some night ->
  map_Forall (fun k _ => lower k = k) CONDITIONS_V3 ->
  (forall sun,
     ClimaCellWeatherEntity._translate_condition None sun = Ok None
     /\ ClimaCellV3WeatherEntity._translate_condition None sun = Ok None
     /\ ClimaCellV3WeatherEntity._translate_condition (Some "") sun = Ok None)
  /\ (forall n w sun,
        WeatherCode n = Some w -> w = CLEAR \/ w = MOSTLY_CLEAR ->
        ClimaCellWeatherEntity._translate_condition (Some n) sun
        = Ok (Some (if sun then day else night)))
  /\ (forall c sun,
        contains "clear" c = true ->
        ClimaCellV3WeatherEntity._translate_condition (Some c) sun
        = Ok (Some (if sun then day else night)))
  /\ (forall n w known sun,
        WeatherCode n = Some w -> w <> CLEAR -> w <> MOSTLY_CLEAR ->
        CONDITIONS !! w = Some known ->
        ClimaCellWeatherEntity._translate_condition (Some n) sun = Ok (Some known))
  /\ (forall c known sun,
        c <> "" -> contains "clear" c = false ->
        CONDITIONS_V3 !! c = Some known ->
        ClimaCellV3WeatherEntity._translate_condition (Some c) sun = Ok (Some known)).
Proof.
  intros Hday Hnight Hlower.
  assert (Hclear : forall sun : bool,
            Some <$> getitem CLEAR_CONDITIONS (if sun then "day" else "night")
            = Ok (Some (if sun then day else night))).
  { intros [|]; [rewrite (getitem_Some _ _ _ Hday) | rewrite (getitem_Some _ _ _ Hnight)];
      reflexivity. }
  split; [|split; [|split; [|split]]].
  - intros sun. repeat split; reflexivity.
  - intros n w sun Hw Hc. rewrite (v4_translate_member n w sun Hw).
    rewrite bool_decide_eq_true_2 by exact Hc. apply Hclear.
  - intros c sun Hc.
    rewrite v3_translate_nonempty
      by (apply (contains_nonempty "clear"); [discriminate | exact Hc]).
    rewrite (clear_lower_contains c Hc). apply Hclear.
  - intros n w known sun Hw Hc Hm Hk. rewrite (v4_translate_member n w sun Hw).
    rewrite bool_decide_eq_false_2 by (intros [?|?]; contradiction).
    now rewrite (getitem_Some _ _ _ Hk).
  - intros c known sun Hne Hc Hk. rewrite (v3_translate_nonempty c sun Hne).
    rewrite (Hlower c known Hk), Hc.
    now rewrite (getitem_Some _ _ _ Hk).
Qed.

(** C8 (as amended). Translation fails hard.  For v4, a code that is there
    and is no member of [WeatherCode] raises [ValueError] instead of
    giving [None].  For v3, a non-empty condition that does not contain
    ['clear'] IN ANY LETTER CASE and is no key of the v3 table raises
    [KeyError].  So the [condition] property of either entity raises on
    such vendor data. *)
Theorem C8_unrecognized_conditions_raise :
  (forall n sun,
     WeatherCode n = None ->
     ClimaCellWeatherEntity._translate_condition (Some n) sun = Raise ValueError)
  /\ (forall c sun,
        c <> "" -> contains "clear" (lower c) = false ->
        CONDITIONS_V3 !! c = None ->
        ClimaCellV3WeatherEntity._translate_condition (Some c) sun = Raise KeyError)
  /\ (forall self values n,
        ClimaCellWeatherEntity.CURRENT (coordinator_data self) = Some values ->
        ClimaCellWeatherEntity.CC_ATTR_CONDITION values = Some n ->
        WeatherCode n = None ->
        ClimaCellWeatherEntity.condition self = Raise ValueError)
  /\ (forall self d c,
        ClimaCellV3WeatherEntity.CURRENT (coordinator_data self) = Some d ->
        _get_cc_value_str d CC_V3_ATTR_CONDITION = Some c ->
        c <> "" -> contains "clear" (lower c) = false ->
        CONDITIONS_V3 !! c = None ->
        ClimaCellV3WeatherEntity.condition self = Raise KeyError).
Proof.
  assert (V4 : forall n sun, WeatherCode n = None ->
             ClimaCellWeatherEntity._translate_condition (Some n) sun = Raise ValueError).
  { intros n sun Hn. unfold ClimaCellWeatherEntity._translate_condition.
    now rewrite Hn. }
  assert (V3 : forall c sun, c <> "" -> contains "clear" (lower c) = false ->
             CONDITIONS_V3 !! c = None ->
             ClimaCellV3WeatherEntity._translate_condition (Some c) sun = Raise KeyError).
  { intros c sun Hne Hc Hk. rewrite (v3_translate_nonempty c sun Hne), Hc.
    now rewrite (getitem_None _ _ Hk). }
  split; [exact V4|]. split; [exact V3|]. split.
  - intros self values n Hcur Hcond Hn.
    unfold ClimaCellWeatherEntity.condition,
      ClimaCellWeatherEntity._get_current_property.
    rewrite Hcur. simpl. rewrite Hcond. now apply V4.
  - intros self d c Hcur Hcond Hne Hc Hk.
    unfold ClimaCellV3WeatherEntity.condition, ClimaCellV3WeatherEntity.current.
    rewrite Hcur. simpl. rewrite Hcond. now apply V3.
Qed.

End ConditionFacts.

(** ** The ClimaCell weather entities: units *)

Section UnitFacts.
Import climacell.
Context `{Host}.

Lemma is_zero_spec q : is_zero q = true <-> q = 0%Qc.
Proof.
  unfold is_zero. rewrite Z.eqb_eq. split.
  - intros Hq. apply Qc_is_canon. unfold Qeq. simpl. now rewrite Hq.
  - now intros ->.
Qed.

Lemma truthy_zero : truthy (Some 0%Qc) = false.
Proof. reflexivity. Qed.

(** A conversion guarded by the reading's truth value is the conversion
    of every reading, as soon as the conversion keeps zero at zero. *)
Lemma guarded_conversion (metric : bool) (f : Qc -> Qc) (x : option Qc) :
  f 0%Qc = 0%Qc ->
  (if metric && truthy x then f <$> x else x) = at_boundary metric f x.
Proof.
  intros Hf. unfold at_boundary, truthy.
  destruct metric, x as [q|]; simpl; try reflexivity.
  destruct (is_zero q) eqn:Hq; simpl; [|reflexivity].
  apply is_zero_spec in Hq as ->. now rewrite Hf.
Qed.

(** Whatever the conversion, a zero reading passes the guard unconverted. *)
Lemma guarded_conversion_zero (metric : bool) (f : Qc -> Qc) :
  (if metric && truthy (Some 0%Qc) then f <$> Some 0%Qc else Some 0%Qc) = Some 0%Qc.
Proof. rewrite truthy_zero, andb_false_r. reflexivity. Qed.

Lemma inches_to_millimeters_zero :
  (forall a b, distance_convert 0%Qc a b = 0%Qc) ->
  inches_to_millimeters 0%Qc = 0%Qc.
Proof.
  intros Hd. unfold inches_to_millimeters.
  replace (0 / Zc 12)%Qc with 0%Qc by (unfold Qcdiv; ring).
  rewrite Hd. ring.
Qed.

(** The forecast dict, once the condition translates. *)
Lemma forecast_dict_returns {Data Cond : Type}
    (translate : option Cond -> bool -> result PyExc (option string))
    (self : Entity Data) (dt : datetime) (use : bool) (c : option Cond)
    (p pp t tl wd ws : option Qc) (tc : option string) :
  translate c (if use then is_up (Some dt) else true) = Ok tc ->
  BaseClimaCellWeatherEntity._forecast_dict translate self (Some dt) use c p pp t tl wd ws
  = Ok {| ATTR_FORECAST_TIME := Some (isoformat dt);
          ATTR_FORECAST_CONDITION := tc;
          ATTR_FORECAST_PRECIPITATION :=
            if is_metric self && truthy p then inches_to_millimeters <$> p else p;
          ATTR_FORECAST_PRECIPITATION_PROBABILITY := pp;
          ATTR_FORECAST_TEMP := t;
          ATTR_FORECAST_TEMP_LOW := tl;
          ATTR_FORECAST_WIND_BEARING := wd;
          ATTR_FORECAST_WIND_SPEED :=
            if is_metric self && truthy ws then miles_to_kilometers <$> ws else ws |}.
Proof.
  intros Ht. unfold BaseClimaCellWeatherEntity._forecast_dict.
  destruct use; rewrite Ht; reflexivity.
Qed.

Lemma v4_extra_state_attributes_returns (self : Entity ClimaCellWeatherEntity.Data) ptype :
  ClimaCellWeatherEntity.precipitation_type self = Ok ptype ->
  ClimaCellWeatherEntity.extra_state_attributes self
  = Ok {| ATTR_CLOUD_COVER :=
            (fun c => c / Zc 100)%Qc <$> ClimaCellWeatherEntity.cloud_cover self;
          ATTR_WIND_GUST :=
            if is_metric self && truthy (ClimaCellWeatherEntity.wind_gust self)
            then miles_to_kilometers <$> ClimaCellWeatherEntity.wind_gust self
            else ClimaCellWeatherEntity.wind_gust self;
          ATTR_PRECIPITATION_TYPE := ptype |}.
Proof.
  intros Hp. unfold ClimaCellWeatherEntity.extra_state_attributes,
    BaseClimaCellWeatherEntity.extra_state_attributes.
  rewrite Hp, (andb_comm (truthy _)). reflexivity.
Qed.

Lemma v3_extra_state_attributes_returns (self : Entity ClimaCellV3WeatherEntity.Data) d :
  ClimaCellV3WeatherEntity.CURRENT (coordinator_data self) = Some d ->
  ClimaCellV3WeatherEntity.extra_state_attributes self
  = Ok {| ATTR_CLOUD_COVER :=
            (fun c => c / Zc 100)%Qc <$> _get_cc_value d CC_V3_ATTR_CLOUD_COVER;
          ATTR_WIND_GUST :=
            if is_metric self && truthy (_get_cc_value d CC_V3_ATTR_WIND_GUST)
            then miles_to_kilometers <$> _get_cc_value d CC_V3_ATTR_WIND_GUST
            else _get_cc_value d CC_V3_ATTR_WIND_GUST;
          ATTR_PRECIPITATION_TYPE := _get_cc_value_str d CC_V3_ATTR_PRECIPITATION_TYPE |}.
Proof.
  intros Hd. unfold ClimaCellV3WeatherEntity.extra_state_attributes,
    ClimaCellV3WeatherEntity.wind_gust, ClimaCellV3WeatherEntity.cloud_cover,
    BaseClimaCellWeatherEntity.extra_state_attributes,
    ClimaCellV3WeatherEntity.precipitation_type, ClimaCellV3WeatherEntity.current.
  rewrite Hd. simpl. rewrite (andb_comm (truthy _)). reflexivity.
Qed.

(** C5. At the attribute boundary a reading is converted when the host's
    unit system is metric and is the vendor's value otherwise: wind speed,
    wind gust and visibility from miles to kilometres, pressure from
    inches of mercury to hectopascals, and a forecast's precipitation from
    inches to millimetres (and its wind speed from miles to kilometres).
    The host's converters are taken to keep zero at zero. *)
Theorem C5_metric_readings_are_converted_at_the_boundary :
  (forall a b, distance_convert 0%Qc a b = 0%Qc) ->
  (forall a b, pressure_convert 0%Qc a b = 0%Qc) ->
  (forall self : Entity ClimaCellWeatherEntity.Data,
     ClimaCellWeatherEntity.wind_speed self
     = at_boundary (is_metric self) miles_to_kilometers
         (ClimaCellWeatherEntity._get_current_property self
            ClimaCellWeatherEntity.CC_ATTR_WIND_SPEED)
     /\ ClimaCellWeatherEntity.visibility self
        = at_boundary (is_metric self) miles_to_kilometers
            (ClimaCellWeatherEntity._get_current_property self
               ClimaCellWeatherEntity.CC_ATTR_VISIBILITY)
     /\ ClimaCellWeatherEntity.pressure self
        = at_boundary (is_metric self) inhg_to_hpa
            (ClimaCellWeatherEntity._get_current_property self
               ClimaCellWeatherEntity.CC_ATTR_PRESSURE)
     /\ (forall ptype,
           ClimaCellWeatherEntity.precipitation_type self = Ok ptype ->
           exists attrs,
             ClimaCellWeatherEntity.extra_state_attributes self = Ok attrs
             /\ ATTR_WIND_GUST attrs
                = at_boundary (is_metric self) miles_to_kilometers
                    (ClimaCellWeatherEntity._get_current_property self
                       ClimaCellWeatherEntity.CC_ATTR_WIND_GUST)))
  /\ (forall (self : Entity ClimaCellV3WeatherEntity.Data) d,
        ClimaCellV3WeatherEntity.CURRENT (coordinator_data self) = Some d ->
        ClimaCellV3WeatherEntity.wind_speed self
        = Ok (at_boundary (is_metric self) miles_to_kilometers
                (_get_cc_value d CC_V3_ATTR_WIND_SPEED))
        /\ ClimaCellV3WeatherEntity.visibility self
           = Ok (at_boundary (is_metric self) miles_to_kilometers
                   (_get_cc_value d CC_V3_ATTR_VISIBILITY))
        /\ ClimaCellV3WeatherEntity.pressure self
           = Ok (at_boundary (is_metric self) inhg_to_hpa
                   (_get_cc_value d CC_V3_ATTR_PRESSURE))
        /\ exists attrs,
             ClimaCellV3WeatherEntity.extra_state_attributes self = Ok attrs
             /\ ATTR_WIND_GUST attrs
                = at_boundary (is_metric self) miles_to_kilometers
                    (_get_cc_value d CC_V3_ATTR_WIND_GUST))
  /\ (forall (Data Cond : Type)
             (translate : option Cond -> bool -> result PyExc (option string))
             (self : Entity Data) (dt : datetime) (use : bool) (c : option Cond)
             (p pp t tl wd ws : option Qc) (tc : option string),
        translate c (if use then is_up (Some dt) else true) = Ok tc ->
        exists entry,
          BaseClimaCellWeatherEntity._forecast_dict translate self (Some dt) use
            c p pp t tl wd ws = Ok entry
          /\ ATTR_FORECAST_PRECIPITATION entry
             = at_boundary (is_metric self) inches_to_millimeters p
          /\ ATTR_FORECAST_WIND_SPEED entry
             = at_boundary (is_metric self) miles_to_kilometers ws).
Proof.
  intros Hd Hp.
  assert (Hmk : miles_to_kilometers 0%Qc = 0%Qc) by apply Hd.
  assert (Hhpa : inhg_to_hpa 0%Qc = 0%Qc) by apply Hp.
  assert (Hmm := inches_to_millimeters_zero Hd).
  split; [|split].
  - intros self. split; [|split; [|split]].
    + apply (guarded_conversion _ miles_to_kilometers _ Hmk).
    + apply (guarded_conversion _ miles_to_kilometers _ Hmk).
    + apply (guarded_conversion _ inhg_to_hpa _ Hhpa).
    + intros ptype Hpt. eexists. split.
      * apply (v4_extra_state_attributes_returns self ptype Hpt).
      * apply (guarded_conversion _ miles_to_kilometers _ Hmk).
  - intros self d Hcur. split; [|split; [|split]].
    + unfold ClimaCellV3WeatherEntity.wind_speed, ClimaCellV3WeatherEntity.current.
      rewrite Hcur. simpl.
      rewrite <- (guarded_conversion _ miles_to_kilometers _ Hmk).
      now destruct (_ && _).
    + unfold ClimaCellV3WeatherEntity.visibility, ClimaCellV3WeatherEntity.current.
      rewrite Hcur. simpl.
      rewrite <- (guarded_conversion _ miles_to_kilometers _ Hmk).
      now destruct (_ && _).
    + unfold ClimaCellV3WeatherEntity.pressure, ClimaCellV3WeatherEntity.current.
      rewrite Hcur. simpl.
      rewrite <- (guarded_conversion _ inhg_to_hpa _ Hhpa).
      now destruct (_ && _).
    + eexists. split.
      * apply (v3_extra_state_attributes_returns self d Hcur).
      * apply (guarded_conversion _ miles_to_kilometers _ Hmk).
  - intros Data Cond translate self dt use c p pp t tl wd ws tc Ht.
    eexists. split; [apply (forecast_dict_returns translate self _ _ _ _ _ _ _ _ _ _ Ht)|].
    split.
    + apply (guarded_conversion _ inches_to_millimeters _ Hmm).
    + apply (guarded_conversion _ miles_to_kilometers _ Hmk).
Qed.

(** C9. The conversions are guarded by the reading's truth value.  A
    reading of wind speed, wind gust, pressure, visibility or forecast
    precipitation (or forecast wind speed) that is 0 comes back as 0 under
    either unit system, with no converter applied: the statement holds for
    whatever converters the host has. *)
Theorem C9_zero_readings_pass_unconverted :
  (forall (self : Entity ClimaCellWeatherEntity.Data) values (metric : bool),
     ClimaCellWeatherEntity.CURRENT (coordinator_data self) = Some values ->
     (ClimaCellWeatherEntity.CC_ATTR_WIND_SPEED values = Some 0%Qc ->
        ClimaCellWeatherEntity.wind_speed (with_units metric self) = Some 0%Qc)
     /\ (ClimaCellWeatherEntity.CC_ATTR_VISIBILITY values = Some 0%Qc ->
           ClimaCellWeatherEntity.visibility (with_units metric self) = Some 0%Qc)
     /\ (ClimaCellWeatherEntity.CC_ATTR_PRESSURE values = Some 0%Qc ->
           ClimaCellWeatherEntity.pressure (with_units metric self) = Some 0%Qc)
     /\ (ClimaCellWeatherEntity.CC_ATTR_WIND_GUST values = Some 0%Qc ->
         forall ptype,
           ClimaCellWeatherEntity.precipitation_type self = Ok ptype ->
           exists attrs,
             ClimaCellWeatherEntity.extra_state_attributes (with_units metric self)
             = Ok attrs
             /\ ATTR_WIND_GUST attrs = Some 0%Qc))
  /\ (forall (self : Entity ClimaCellV3WeatherEntity.Data) d (metric : bool),
        ClimaCellV3WeatherEntity.CURRENT (coordinator_data self) = Some d ->
        (_get_cc_value d CC_V3_ATTR_WIND_SPEED = Some 0%Qc ->
           ClimaCellV3WeatherEntity.wind_speed (with_units metric self) = Ok (Some 0%Qc))
        /\ (_get_cc_value d CC_V3_ATTR_VISIBILITY = Some 0%Qc ->
              ClimaCellV3WeatherEntity.visibility (with_units metric self) = Ok (Some 0%Qc))
        /\ (_get_cc_value d CC_V3_ATTR_PRESSURE = Some 0%Qc ->
              ClimaCellV3WeatherEntity.pressure (with_units metric self) = Ok (Some 0%Qc))
        /\ (_get_cc_value d CC_V3_ATTR_WIND_GUST = Some 0%Qc ->
            exists attrs,
              ClimaCellV3WeatherEntity.extra_state_attributes (with_units metric self)
              = Ok attrs
              /\ ATTR_WIND_GUST attrs = Some 0%Qc))
  /\ (forall (Data Cond : Type)
             (translate : option Cond -> bool -> result PyExc (option string))
             (self : Entity Data) (metric : bool) (dt : datetime) (use : bool)
             (c : option Cond) (p pp t tl wd ws : option Qc) (tc : option string),
        translate c (if use then is_up (Some dt) else true) = Ok tc ->
        exists entry,
          BaseClimaCellWeatherEntity._forecast_dict translate (with_units metric self)
            (Some dt) use c p pp t tl wd ws = Ok entry
          /\ (p = Some 0%Qc -> ATTR_FORECAST_PRECIPITATION entry = Some 0%Qc)
          /\ (ws = Some 0%Qc -> ATTR_FORECAST_WIND_SPEED entry = Some 0%Qc)).
Proof.
  split; [|split].
  - intros self values metric Hcur. split; [|split; [|split]].
    + intros Hv. unfold ClimaCellWeatherEntity.wind_speed,
        ClimaCellWeatherEntity._get_current_property. simpl.
      rewrite Hcur. simpl. rewrite Hv. apply guarded_conversion_zero.
    + intros Hv. unfold ClimaCellWeatherEntity.visibility,
        ClimaCellWeatherEntity._get_current_property. simpl.
      rewrite Hcur. simpl. rewrite Hv. apply guarded_conversion_zero.
    + intros Hv. unfold ClimaCellWeatherEntity.pressure,
        ClimaCellWeatherEntity._get_current_property. simpl.
      rewrite Hcur. simpl. rewrite Hv. apply guarded_conversion_zero.
    + intros Hv ptype Hpt. eexists. split.
      * apply (v4_extra_state_attributes_returns (with_units metric self) ptype Hpt).
      * simpl. unfold ClimaCellWeatherEntity.wind_gust,
          ClimaCellWeatherEntity._get_current_property. simpl.
        rewrite Hcur. simpl. rewrite Hv. apply guarded_conversion_zero.
  - intros self d metric Hcur. split; [|split; [|split]].
    + intros Hv. unfold ClimaCellV3WeatherEntity.wind_speed,
        ClimaCellV3WeatherEntity.current. simpl.
      rewrite Hcur. simpl. rewrite Hv, truthy_zero, andb_false_r. reflexivity.
    + intros Hv. unfold ClimaCellV3WeatherEntity.visibility,
        ClimaCellV3WeatherEntity.current. simpl.
      rewrite Hcur. simpl. rewrite Hv, truthy_zero, andb_false_r. reflexivity.
    + intros Hv. unfold ClimaCellV3WeatherEntity.pressure,
        ClimaCellV3WeatherEntity.current. simpl.
      rewrite Hcur. simpl. rewrite Hv, truthy_zero, andb_false_r. reflexivity.
    + intros Hv. eexists. split.
      * apply (v3_extra_state_attributes_returns (with_units metric self) d Hcur).
      * simpl. rewrite Hv. apply guarded_conversion_zero.
  - intros Data Cond translate self metric dt use c p pp t tl wd ws tc Ht.
    eexists. split.
    + apply (forecast_dict_returns translate (with_units metric self)
               _ _ _ _ _ _ _ _ _ _ Ht).
    + simpl. split; intros ->; apply guarded_conversion_zero.
Qed.

End UnitFacts.

(** ** The ClimaCell weather entities: forecasts *)

Section ForecastFacts.
Import climacell.
Context `{Host}.





(** The v3 loop looks at no date and counts nothing: it returns exactly
    when every entry builds, with one forecast per entry, in order. *)
Lemma v3_forecast_loop_spec (self : Entity ClimaCellV3WeatherEntity.Data) :
  forall raw acc out,
    ClimaCellV3WeatherEntity.forecast_loop self raw acc = Ok out <->
    exists new,
      out = (acc ++ new)%list
      /\ Forall2 (fun f entry => ClimaCellV3WeatherEntity.forecast_entry self f = Ok entry)
           raw new.
Proof.
  induction raw as [|f raw IH]; intros acc out; simpl.
  - split.
    + intros [= <-]. exists []. split; [now rewrite app_nil_r | constructor].
    + intros (new & -> & Hnew). inversion Hnew. now rewrite app_nil_r.
  - destruct (ClimaCellV3WeatherEntity.forecast_entry self f) as [entry|e] eqn:Hentry.
    + rewrite IH. split.
      * intros (new & -> & Hnew). exists (entry :: new). split.
        -- now rewrite <- app_assoc.
        -- now constructor.
      * intros (new & -> & Hnew). inversion Hnew as [|? d ? new' Hd Hrest]; subst.
        rewrite Hentry in Hd. injection Hd as <-.
        exists new'. split; [now rewrite <- app_assoc | exact Hrest].
    + split; [discriminate|].
      intros (new & _ & Hnew). inversion Hnew; subst. congruence.
Qed.



End ForecastFacts.

(** ** The Z-Wave JS constants *)

(** C7. The constants module binds five names and nothing else: the domain
    ['zwave_js'], the integration name, the platform list
    [['light', 'sensor']] and two data-key strings; each is text or a list
    of text, and none is a function or a class. *)
Theorem C7_zwave_js_const_declares_only_constants :
  zwave_js.DOMAIN = "zwave_js"
  /\ zwave_js.NAME = "Z-Wave JS"
  /\ zwave_js.PLATFORMS = ["light"; "sensor"]
  /\ zwave_js.DATA_CLIENT = "client"
  /\ zwave_js.DATA_UNSUBSCRIBE = "unsubs"
  /\ List.map fst zwave_js.namespace
     = ["DOMAIN"; "NAME"; "PLATFORMS"; "DATA_CLIENT"; "DATA_UNSUBSCRIBE"]
  /\ Forall (fun binding => zwave_js.is_static (snd binding) = true) zwave_js.namespace
  /\ (forall name obj, In (name, obj) zwave_js.namespace ->
        forall f, obj <> zwave_js.PyFunction f /\ obj <> zwave_js.PyClass f).
Proof.
  split_and!; try reflexivity.
  - repeat constructor.
  - intros name obj Hin f. simpl in Hin.
    repeat (destruct Hin as [[= <- <-]|Hin]; [split; discriminate|]).
    destruct Hin.
Qed.

(** ** The properties at concrete inputs *)

Section SampleFacts.
Import Text climacell Sample.weather.

Lemma sample_length_zero a b : convert_length 0%Qc a b = 0%Qc.
Proof. unfold convert_length, Qcdiv. ring. Qed.

Lemma sample_pressure_zero a b : convert_pressure 0%Qc a b = 0%Qc.
Proof. unfold convert_pressure, Qcdiv. ring. Qed.

Lemma sample_v3_names_lower : map_Forall (fun k _ => lower k = k) conditions_v3.
Proof.
  unfold conditions_v3.
  repeat (apply map_Forall_insert_2; [reflexivity|]).
  apply map_Forall_empty.
Qed.

End SampleFacts.

(** C3 on the sample tables: a clear night under v4, a mostly clear day
    under v3, and rain under both. *)
Lemma C3_witness_clear_night_and_rain :
  climacell.ClimaCellWeatherEntity._translate_condition
       (H:=Sample.weather.host) (Some 1000%Z) false
  = Ok (Some "clear-night")
  /\ climacell.ClimaCellV3WeatherEntity._translate_condition
       (H:=Sample.weather.host) (Some "mostly_clear") true
     = Ok (Some "sunny")
  /\ climacell.ClimaCellWeatherEntity._translate_condition
       (H:=Sample.weather.host) (Some 4001%Z) true
     = Ok (Some "rainy")
  /\ climacell.ClimaCellV3WeatherEntity._translate_condition
       (H:=Sample.weather.host) (Some "rain") false
     = Ok (Some "rainy").
Proof.
  destruct (C3_clear_follows_the_sun_others_follow_the_table
              (H:=Sample.weather.host) "sunny" "clear-night"
              eq_refl eq_refl sample_v3_names_lower)
    as (_ & Hclear4 & Hclear3 & Hknown4 & Hknown3).
  split_and!.
  - apply (Hclear4 1000%Z 1000%Z false); [reflexivity | now left].
  - apply (Hclear3 "mostly_clear" true). reflexivity.
  - apply (Hknown4 4001%Z 4001%Z "rainy" true); try reflexivity; discriminate.
  - apply (Hknown3 "rain" "rainy" false); try reflexivity; discriminate.
Defined.

(** C8 on the sample tables: an unknown code and an unknown name. *)
Lemma C8_witness_unknown_code_and_name :
  climacell.ClimaCellWeatherEntity._translate_condition
       (H:=Sample.weather.host) (Some 9999%Z) true
  = Raise climacell.ValueError
  /\ climacell.ClimaCellV3WeatherEntity._translate_condition
       (H:=Sample.weather.host) (Some "hail") true
     = Raise climacell.KeyError
  /\ climacell.ClimaCellV3WeatherEntity.condition (H:=Sample.weather.host)
       (Sample.weather.entity_v3 "hail")
     = Raise climacell.KeyError.
Proof.
  destruct (C8_unrecognized_conditions_raise (H:=Sample.weather.host))
    as (H4 & H3 & _ & Hc3).
  split_and!.
  - apply H4. reflexivity.
  - apply H3; [discriminate | reflexivity | reflexivity].
  - apply (Hc3 (Sample.weather.entity_v3 "hail") (Sample.weather.v3_now "hail") "hail");
      try reflexivity. discriminate.
Defined.

(** The v3 condition ["CLEAR"] is not empty, does not contain ['clear'] and
    is no key of the table, and it translates without raising. *)
Lemma C8_counterexample_upper_case_clear :
  "CLEAR" <> ""
  /\ Text.contains "clear" "CLEAR" = false
  /\ @climacell.CONDITIONS_V3 Sample.weather.host !! "CLEAR" = None
  /\ climacell.ClimaCellV3WeatherEntity._translate_condition
       (H:=Sample.weather.host) (Some "CLEAR") true
     = Ok (Some "sunny").
Proof.
  split_and!; [discriminate | reflexivity | reflexivity | reflexivity].
Qed.

(** C5 on the sample host: 10 mph of wind and 30 inHg under both unit
    systems. *)
Lemma C5_witness_wind_and_pressure :
  climacell.ClimaCellWeatherEntity.wind_speed (H:=Sample.weather.host)
    (Sample.weather.entity_v4 true Sample.weather.rainy_now)
  = Some (Sample.weather.convert_length (climacell.Zc 10)
            climacell.LENGTH_MILES climacell.LENGTH_KILOMETERS)
  /\ climacell.ClimaCellWeatherEntity.wind_speed (H:=Sample.weather.host)
       (Sample.weather.entity_v4 false Sample.weather.rainy_now)
     = Some (climacell.Zc 10)
  /\ climacell.ClimaCellWeatherEntity.pressure (H:=Sample.weather.host)
       (Sample.weather.entity_v4 true Sample.weather.rainy_now)
     = Some (Sample.weather.convert_pressure (climacell.Zc 30)
               climacell.PRESSURE_INHG climacell.PRESSURE_HPA).
Proof.
  destruct (C5_metric_readings_are_converted_at_the_boundary
              (H:=Sample.weather.host) sample_length_zero sample_pressure_zero)
    as (H4 & _ & _).
  split_and!.
  - exact (proj1 (H4 (Sample.weather.entity_v4 true Sample.weather.rainy_now))).
  - exact (proj1 (H4 (Sample.weather.entity_v4 false Sample.weather.rainy_now))).
  - exact (proj1 (proj2 (proj2
             (H4 (Sample.weather.entity_v4 true Sample.weather.rainy_now))))).
Defined.

(** C9 on the sample host: calm air reads 0 under both unit systems. *)
Lemma C9_witness_calm :
  climacell.ClimaCellWeatherEntity.wind_speed (H:=Sample.weather.host)
    (climacell.with_units true
       (Sample.weather.entity_v4 false Sample.weather.calm_now)) = Some 0%Qc
  /\ climacell.ClimaCellWeatherEntity.wind_speed (H:=Sample.weather.host)
       (climacell.with_units false
          (Sample.weather.entity_v4 false Sample.weather.calm_now)) = Some 0%Qc.
Proof.
  destruct (C9_zero_readings_pass_unconverted (H:=Sample.weather.host)) as (H4 & _ & _).
  split.
  - exact (proj1 (H4 (Sample.weather.entity_v4 false Sample.weather.calm_now)
                    Sample.weather.calm_now true eq_refl) eq_refl).
  - exact (proj1 (H4 (Sample.weather.entity_v4 false Sample.weather.calm_now)
                    Sample.weather.calm_now false eq_refl) eq_refl).
Defined.



(** * Further properties *)

(** ** The geolocation trigger: what the action receives, and when nothing runs *)

Section GeoLocationMore.
Import Text geo_location.

Variables (Action EventContext Exc : Type).
Variable condition_zone :
  Hass Action EventContext -> option State -> State -> result Exc bool.

(** The variables the listener hands to the action for an event. *)
Lemma listener_outcomes (env : Attached Action) hass event :
  state_change_listener condition_zone env hass event = Ok hass
  \/ raises (state_change_listener condition_zone env hass event)
  \/ state_change_listener condition_zone env hass event
     = Ok (async_run_hass_job hass (job env)
             {| tr_platform := "geo_location";
                tr_source := source env;
                tr_entity_id := data_entity_id event;
                tr_from_state := old_state event;
                tr_to_state := new_state event;
                tr_zone := states hass !! zone_entity_id env;
                tr_event := trigger_event env;
                tr_description := "geo_location - " ++ source env;
                tr_id := trigger_id env |}
             (context event)).
Proof.
  unfold raises, state_change_listener.
  destruct (negb _ && negb _); [now left|].
  destruct (match old_state event with Some _ => _ | None => _ end)
    as [fm|e]; simpl; [|right; left; eauto].
  destruct (match new_state event with Some _ => _ | None => _ end)
    as [tm|e]; simpl; [|right; left; eauto].
  destruct (_ || _); [|now left].
  right; right. reflexivity.
Qed.

Lemma trigger_id_lookup (config : Config) (action : Action)
    (info : option (gmap string string)) :
  trigger_id (async_attach_trigger config action info)
  = info ≫= (fun i => i !! "trigger_id").
Proof.
  destruct info as [i|]; simpl; [|reflexivity].
  destruct (decide (i = ∅)) as [->|]; [|reflexivity].
  now rewrite lookup_empty.
Qed.

(** X1. When the action is run for an event, the variables it receives
    name the platform ['geo_location'], the lower-cased configured source
    and the description built from it, the event's entity id, the state
    of the configured zone as the host holds it, the configured event and
    the automation's trigger id (none without automation info). *)
Theorem X1_action_receives_the_trigger_variables
    (config : Config) (action : Action) (info : option (gmap string string))
    (hass : Hass Action EventContext) (event : Event EventContext) :
  action_invoked condition_zone (async_attach_trigger config action info) hass event ->
  exists hass' run,
    state_change_listener condition_zone (async_attach_trigger config action info)
      hass event = Ok hass'
    /\ jobs_run hass' = (jobs_run hass ++ [run])%list
    /\ run_job run = action
    /\ tr_platform (run_trigger run) = "geo_location"
    /\ tr_source (run_trigger run) = lower (CONF_SOURCE config)
    /\ tr_description (run_trigger run) = "geo_location - " ++ lower (CONF_SOURCE config)
    /\ tr_entity_id (run_trigger run) = data_entity_id event
    /\ tr_zone (run_trigger run) = states hass !! CONF_ZONE config
    /\ tr_event (run_trigger run) = CONF_EVENT config
    /\ tr_id (run_trigger run) = info ≫= (fun i => i !! "trigger_id").
Proof.
  intros (h' & r & Hl & _ & Hj & _).
  destruct (listener_outcomes (async_attach_trigger config action info) hass event)
    as [Hs|[[e He]|Hrun]].
  - rewrite Hs in Hl. injection Hl as <-. now apply append_one_neq in Hj.
  - rewrite He in Hl. discriminate.
  - rewrite Hrun. eexists _, _. split; [reflexivity|].
    split; [reflexivity|]. split_and!; try reflexivity.
    apply trigger_id_lookup.
Qed.

(** X2. An event neither of whose states carries the trigger's source is
    dropped before the zone is looked at: the listener returns the host
    untouched whatever the zone test would do, also when the zone is
    missing or the test raises. *)
Theorem X2_other_sources_are_dropped_before_the_zone_test
    (config : Config) (action : Action) (info : option (gmap string string))
    (hass : Hass Action EventContext) (event : Event EventContext) :
  (forall s, old_state event = Some s ->
     attributes s !! "source" <> Some (VStr (lower (CONF_SOURCE config)))) ->
  (forall s, new_state event = Some s ->
     attributes s !! "source" <> Some (VStr (lower (CONF_SOURCE config)))) ->
  action_skipped condition_zone (async_attach_trigger config action info) hass event.
Proof.
  intros Ho Hn.
  assert (M : forall st,
            (forall s, st = Some s ->
               attributes s !! "source" <> Some (VStr (lower (CONF_SOURCE config)))) ->
            source_match st (lower (CONF_SOURCE config)) = false).
  { intros st Hst. destruct (source_match st _) eqn:E; [|reflexivity].
    apply source_match_spec in E as (s & -> & Hs). now destruct (Hst s eq_refl). }
  unfold action_skipped, state_change_listener. simpl.
  now rewrite (M _ Ho), (M _ Hn).
Qed.

(** X3. The configured source is read without regard to letter case: two
    configurations whose sources differ only in case, with the same zone
    and event, attach the same trigger, so their listeners agree on every
    host and event. *)
Theorem X3_configured_source_is_case_insensitive
    (c1 c2 : Config) (action : Action) (info : option (gmap string string)) :
  lower (CONF_SOURCE c1) = lower (CONF_SOURCE c2) ->
  CONF_ZONE c1 = CONF_ZONE c2 ->
  CONF_EVENT c1 = CONF_EVENT c2 ->
  async_attach_trigger c1 action info = async_attach_trigger c2 action info
  /\ (forall hass event,
        state_change_listener condition_zone (async_attach_trigger c1 action info) hass event
        = state_change_listener condition_zone (async_attach_trigger c2 action info)
            hass event)
  /\ async_attach_trigger
       {| CONF_SOURCE := lower (CONF_SOURCE c1); CONF_ZONE := CONF_ZONE c1;
          CONF_EVENT := CONF_EVENT c1 |} action info
     = async_attach_trigger c1 action info.
Proof.
  intros Hs Hz He.
  assert (Heq : async_attach_trigger c1 action info = async_attach_trigger c2 action info).
  { unfold async_attach_trigger. now rewrite Hs, Hz, He. }
  split; [exact Heq|]. split.
  - intros hass event. now rewrite Heq.
  - unfold async_attach_trigger. simpl. now rewrite lower_idem.
Qed.

(** X4. An enter trigger and a leave trigger on the same source and zone
    never both run for one event: when either runs its action, the
    other's listener returns the host untouched. *)
Theorem X4_enter_and_leave_exclude_each_other
    (c_enter c_leave : Config) (a_enter a_leave : Action)
    (info : option (gmap string string))
    (hass : Hass Action EventContext) (event : Event EventContext) :
  lower (CONF_SOURCE c_enter) = lower (CONF_SOURCE c_leave) ->
  CONF_ZONE c_enter = CONF_ZONE c_leave ->
  CONF_EVENT c_enter = EVENT_ENTER ->
  CONF_EVENT c_leave = EVENT_LEAVE ->
  (action_invoked condition_zone (async_attach_trigger c_enter a_enter info) hass event ->
   action_skipped condition_zone (async_attach_trigger c_leave a_leave info) hass event)
  /\
  (action_invoked condition_zone (async_attach_trigger c_leave a_leave info) hass event ->
   action_skipped condition_zone (async_attach_trigger c_enter a_enter info) hass event).
Proof.
  intros Hs Hz Hen Hle.
  split; intros Hinv; apply listener_invoked_iff in Hinv as [Hsrc Htr];
    unfold zone_transition in Htr; simpl in Hsrc, Htr.
  - destruct Htr as [(_ & Hout & Hin)|(El & _)];
      [|rewrite Hen in El; discriminate].
    apply zone_test_false in Hout. apply zone_test_true in Hin.
    simpl in Hout, Hin. rewrite Hz in Hout, Hin.
    unfold action_skipped, state_change_listener. simpl.
    rewrite Hout, Hin, Hle. simpl.
    now destruct (negb _ && negb _).
  - destruct Htr as [(Ee & _)|(_ & Hin & Hout)];
      [rewrite Hle in Ee; discriminate|].
    apply zone_test_false in Hout. apply zone_test_true in Hin.
    simpl in Hout, Hin. rewrite <- Hz in Hout, Hin.
    unfold action_skipped, state_change_listener. simpl.
    rewrite Hout, Hin, Hen. simpl.
    now destruct (negb _ && negb _).
Qed.

(** X5. A leave trigger never runs for an entity that has just appeared
    (no old state), and an enter trigger never runs for one that has just
    been removed (no new state): the listener returns the host untouched
    or raises out of the zone test. *)
Theorem X5_appearing_never_leaves_and_vanishing_never_enters
    (config : Config) (action : Action) (info : option (gmap string string))
    (hass : Hass Action EventContext) (event : Event EventContext) :
  (old_state event = None /\ CONF_EVENT config = EVENT_LEAVE)
  \/ (new_state event = None /\ CONF_EVENT config = EVENT_ENTER) ->
  action_skipped condition_zone (async_attach_trigger config action info) hass event
  \/ raises (state_change_listener condition_zone
               (async_attach_trigger config action info) hass event).
Proof.
  intros Hcase.
  destruct (listener_cases _ _ _ condition_zone
              (async_attach_trigger config action info) hass event)
    as [Hs|[Hr|Hinv]]; [now left | now right |].
  exfalso. apply listener_invoked_iff in Hinv as [_ Htr].
  unfold zone_transition in Htr. simpl in Htr.
  destruct Hcase as [[Hnone Hev]|[Hnone Hev]]; rewrite Hnone, Hev in Htr;
    destruct Htr as [(E & Ha & Hb)|(E & Ha & Hb)]; try discriminate.
  - destruct Ha as (s & [=] & _).
  - destruct Hb as (s & [=] & _).
Qed.

End GeoLocationMore.

Section GeoLocationSamples.
Import geo_location Sample.geo.

(** A bolt moving into the home zone runs the action of the trigger
    configured for ["Lightning"]. *)
Lemma bolt_enters_runs_the_action :
  action_invoked zone_test (async_attach_trigger config_lightning "notify" None)
    hass0 bolt_enters.
Proof.
  eexists _, _. split; [vm_compute; reflexivity|].
  split_and!; reflexivity.
Qed.

End GeoLocationSamples.

Lemma X1_witness_bolt_enters :
  exists hass' run,
    geo_location.state_change_listener Sample.geo.zone_test
      (geo_location.async_attach_trigger Sample.geo.config_lightning "notify" None)
      Sample.geo.hass0 Sample.geo.bolt_enters = Ok hass'
    /\ geo_location.jobs_run hass' = [run]
    /\ geo_location.tr_description (geo_location.run_trigger run)
       = "geo_location - lightning"
    /\ geo_location.tr_id (geo_location.run_trigger run) = None.
Proof.
  destruct (X1_action_receives_the_trigger_variables string nat string
              Sample.geo.zone_test Sample.geo.config_lightning "notify" None
              Sample.geo.hass0 Sample.geo.bolt_enters bolt_enters_runs_the_action)
    as (h' & r & Hl & Hj & _ & _ & _ & Hd & _ & _ & _ & Hid).
  exists h', r. split_and!; assumption.
Defined.

Lemma X2_witness_other_source_without_zone :
  geo_location.action_skipped Sample.geo.zone_test
    (geo_location.async_attach_trigger Sample.geo.config_lightning "notify" None)
    Sample.geo.hass_without_zone Sample.geo.strike_enters.
Proof.
  apply (X2_other_sources_are_dropped_before_the_zone_test string nat string
           Sample.geo.zone_test Sample.geo.config_lightning "notify" None
           Sample.geo.hass_without_zone Sample.geo.strike_enters).
  - intros s [= <-] Hc. vm_compute in Hc. discriminate.
  - intros s [= <-] Hc. vm_compute in Hc. discriminate.
Defined.

Lemma X3_witness_lightning_in_capitals :
  geo_location.async_attach_trigger Sample.geo.config_lightning "notify" None
  = geo_location.async_attach_trigger
      {| geo_location.CONF_SOURCE := "LIGHTNING";
         geo_location.CONF_ZONE := "zone.home";
         geo_location.CONF_EVENT := "enter" |} "notify" None.
Proof.
  exact (proj1 (X3_configured_source_is_case_insensitive string nat string
                  Sample.geo.zone_test Sample.geo.config_lightning
                  {| geo_location.CONF_SOURCE := "LIGHTNING";
                     geo_location.CONF_ZONE := "zone.home";
                     geo_location.CONF_EVENT := "enter" |}
                  "notify" None eq_refl eq_refl eq_refl)).
Defined.

Lemma X4_witness_entering_bolt :
  geo_location.action_skipped Sample.geo.zone_test
    (geo_location.async_attach_trigger Sample.geo.config_leave "all clear" None)
    Sample.geo.hass0 Sample.geo.bolt_enters.
Proof.
  exact (proj1 (X4_enter_and_leave_exclude_each_other string nat string
                  Sample.geo.zone_test Sample.geo.config_lightning
                  Sample.geo.config_leave "notify" "all clear" None
                  Sample.geo.hass0 Sample.geo.bolt_enters
                  eq_refl eq_refl eq_refl eq_refl)
               bolt_enters_runs_the_action).
Defined.

Lemma X5_witness_bolt_appears_and_vanishes :
  (geo_location.action_skipped Sample.geo.zone_test
     (geo_location.async_attach_trigger Sample.geo.config_leave "all clear" None)
     Sample.geo.hass0 Sample.geo.bolt_appears
   \/ raises (geo_location.state_change_listener Sample.geo.zone_test
                (geo_location.async_attach_trigger Sample.geo.config_leave "all clear" None)
                Sample.geo.hass0 Sample.geo.bolt_appears))
  /\ (geo_location.action_skipped Sample.geo.zone_test
        (geo_location.async_attach_trigger Sample.geo.config_lightning "notify" None)
        Sample.geo.hass0 Sample.geo.bolt_vanishes
      \/ raises (geo_location.state_change_listener Sample.geo.zone_test
                   (geo_location.async_attach_trigger Sample.geo.config_lightning
                      "notify" None)
                   Sample.geo.hass0 Sample.geo.bolt_vanishes)).
Proof.
  split.
  - apply (X5_appearing_never_leaves_and_vanishing_never_enters string nat string
             Sample.geo.zone_test Sample.geo.config_leave "all clear" None
             Sample.geo.hass0 Sample.geo.bolt_appears).
    left. split; reflexivity.
  - apply (X5_appearing_never_leaves_and_vanishing_never_enters string nat string
             Sample.geo.zone_test Sample.geo.config_lightning "notify" None
             Sample.geo.hass0 Sample.geo.bolt_vanishes).
    right. split; reflexivity.
Defined.

(** ** The iAlarm config flow: what a step can and cannot do *)

Section IAlarmMore.
Import ialarm.

Variable get_mac : string -> Z -> result PyExc string.
Variable entries : list ConfigEntry.

Lemma no_errors_is_empty :
  negb (bool_decide ((∅ : gmap string string) = ∅)) = false.
Proof. apply negb_false_iff, bool_decide_eq_true. reflexivity. Qed.

Lemma one_error_is_not_empty (err : string) :
  negb (bool_decide (<["base" := err]> (∅ : gmap string string) = ∅)) = true.
Proof. apply negb_true_iff, bool_decide_eq_false, insert_non_empty. Qed.

(** The step, by what the probe does. *)
Lemma step_user_by_probe st input :
  async_step_user get_mac entries st (Some input) =
  match get_mac (CONF_HOST input) (CONF_PORT input) with
  | Ok mac =>
      (if already_configured entries mac
       then Raise (AbortFlow "already_configured")
       else Ok (CreateEntry (CONF_HOST input) input),
       {| unique_id := Some mac; logged := logged st |})
  | Raise e =>
      if is_ConnectionError e then
        (Ok (Form "user" DATA_SCHEMA (Some {["base" := "cannot_connect"]})), st)
      else if is_Exception e then
        (Ok (Form "user" DATA_SCHEMA (Some {["base" := "unknown"]})),
         log_exception st "Unexpected exception" e)
      else (Raise e, st)
  end.
Proof.
  unfold async_step_user, _get_device_mac.
  destruct (get_mac _ _) as [mac|e].
  - rewrite no_errors_is_empty.
    unfold _abort_if_unique_id_configured. cbn [async_set_unique_id unique_id].
    now destruct (already_configured entries mac).
  - destruct (is_ConnectionError e); [now rewrite one_error_is_not_empty|].
    destruct (is_Exception e); [now rewrite one_error_is_not_empty | reflexivity].
Qed.

(** X6. A step asks for a config entry only after a probe that answered
    with a MAC address no configured entry has: the entry then carries the
    entered host as title and the input as data, and the flow's unique id
    is that address.  Without user input, after a failed probe or for a
    configured address, nothing is created. *)
Theorem X6_entry_is_created_only_after_a_fresh_probe
    (st : FlowState) (user_input : option UserInput)
    (title : string) (data : UserInput) :
  In (title, data)
     (created_entries (fst (async_step_user get_mac entries st user_input))) ->
  exists input mac,
    user_input = Some input
    /\ title = CONF_HOST input /\ data = input
    /\ get_mac (CONF_HOST input) (CONF_PORT input) = Ok mac
    /\ (forall e, In e entries -> entry_unique_id e <> Some mac)
    /\ unique_id (snd (async_step_user get_mac entries st user_input)) = Some mac.
Proof.
  destruct user_input as [input|]; [|intros []].
  rewrite step_user_by_probe.
  destruct (get_mac _ _) as [mac|e] eqn:Hp.
  - destruct (already_configured entries mac) eqn:Hc; simpl; [intros []|].
    intros [[= <- <-]|[]]. exists input, mac. split_and!; try reflexivity.
    + exact Hp.
    + intros en Hin Hen.
      assert (Ht : already_configured entries mac = true)
        by (apply already_configured_spec; eauto).
      congruence.
  - destruct (is_ConnectionError e); [intros []|].
    destruct (is_Exception e); intros [].
Qed.


(** X9. A step writes to the log only for an unexpected exception of the
    probe, and then one record with it; without user input, after a probe
    that answers, after a [ConnectionError] and when an exception passes
    through, the log stays as it was. *)
Theorem X9_only_unexpected_exceptions_are_logged
    (st : FlowState) (user_input : option UserInput) :
  (forall e,
     unexpected_failure get_mac user_input e ->
     logged (snd (async_step_user get_mac entries st user_input))
     = (logged st ++ [("Unexpected exception", e)])%list)
  /\ ((forall e, unexpected_failure get_mac user_input e -> False) ->
      logged (snd (async_step_user get_mac entries st user_input)) = logged st).
Proof.
  split.
  - intros e (input & -> & Hp & He & Hc).
    now rewrite step_user_by_probe, Hp, Hc, He.
  - intros Hnone. destruct user_input as [input|]; [|reflexivity].
    rewrite step_user_by_probe.
    destruct (get_mac _ _) as [mac|e] eqn:Hp; [reflexivity|].
    destruct (is_ConnectionError e) eqn:Hc; [reflexivity|].
    destruct (is_Exception e) eqn:He; [|reflexivity].
    destruct (Hnone e). now exists input.
Qed.

End IAlarmMore.

Section IAlarmHistory.
Import ialarm.

(** X8. What a step returns depends on the input, the probe and the
    configured entries, not on what the flow went through before: after
    any earlier step, with any probe and input, the next step returns
    what it would have returned on the flow as it first was.  A failed
    attempt does not stand in the way of a later one. *)
Theorem X8_a_step_does_not_depend_on_earlier_steps
    (probe1 probe2 : string -> Z -> result PyExc string)
    (entries : list ConfigEntry) (st : FlowState)
    (input1 input2 : option UserInput) :
  fst (async_step_user probe2 entries
         (snd (async_step_user probe1 entries st input1)) input2)
  = fst (async_step_user probe2 entries st input2).
Proof.
  generalize (snd (async_step_user probe1 entries st input1)). intros st1.
  destruct input2 as [input|]; [|reflexivity].
  rewrite !step_user_by_probe.
  destruct (probe2 _ _) as [mac|e]; [reflexivity|].
  destruct (is_ConnectionError e); [reflexivity|].
  now destruct (is_Exception e).
Qed.

End IAlarmHistory.

Lemma X6_witness_new_panel :
  exists mac,
    Sample.alarm.probe_answers "192.168.1.20" 18034%Z = Ok mac
    /\ ialarm.unique_id
         (snd (ialarm.async_step_user Sample.alarm.probe_answers
                 [Sample.alarm.other_panel] Sample.alarm.fresh
                 (Some Sample.alarm.panel))) = Some mac.
Proof.
  destruct (X6_entry_is_created_only_after_a_fresh_probe
              Sample.alarm.probe_answers [Sample.alarm.other_panel]
              Sample.alarm.fresh (Some Sample.alarm.panel)
              "192.168.1.20" Sample.alarm.panel)
    as (input & mac & Hin & _ & _ & Hp & _ & Hu).
  - left. reflexivity.
  - injection Hin as <-. exists mac. split; [exact Hp | exact Hu].
Defined.


Lemma X9_witness_broken_probe :
  ialarm.logged
    (snd (ialarm.async_step_user Sample.alarm.probe_breaks [] Sample.alarm.fresh
            (Some Sample.alarm.panel)))
  = [("Unexpected exception", ialarm.OtherException "ValueError")]
  /\ ialarm.logged
       (snd (ialarm.async_step_user Sample.alarm.probe_refused [] Sample.alarm.fresh
               (Some Sample.alarm.panel))) = [].
Proof.
  split.
  - apply (proj1 (X9_only_unexpected_exceptions_are_logged
                    Sample.alarm.probe_breaks [] Sample.alarm.fresh
                    (Some Sample.alarm.panel))).
    exists Sample.alarm.panel. now split_and!.
  - apply (proj2 (X9_only_unexpected_exceptions_are_logged
                    Sample.alarm.probe_refused [] Sample.alarm.fresh
                    (Some Sample.alarm.panel))).
    intros e (input & _ & Hp & _ & Hc). injection Hp as <-. discriminate.
Defined.

(** ** The ClimaCell weather entities: more on conditions and readings *)

Section ClimaCellConditionsMore.
Import Text climacell.
Context `{Host}.

Lemma fmap_Some_not_None {A} (m : result PyExc A) : Some <$> m <> Ok None.
Proof. now destruct m. Qed.

Lemma v4_translate_clear_or_not n w (sun : bool) :
  WeatherCode n = Some w ->
  w <> CLEAR -> w <> MOSTLY_CLEAR ->
  ClimaCellWeatherEntity._translate_condition (Some n) sun
  = Some <$> getitem CONDITIONS w.
Proof.
  intros Hw Hc Hm. unfold ClimaCellWeatherEntity._translate_condition. rewrite Hw.
  now rewrite bool_decide_eq_false_2 by (intros [?|?]; contradiction).
Qed.

(** X10. A condition that is there is never translated to [None]: the v4
    translation gives [None] only for [None], the v3 translation only for
    [None] and the empty string; for anything else it gives a host
    condition or raises. *)
Theorem X10_only_a_missing_condition_translates_to_none :
  (forall c sun,
     ClimaCellWeatherEntity._translate_condition c sun = Ok None <-> c = None)
  /\ (forall c sun,
        ClimaCellV3WeatherEntity._translate_condition c sun = Ok None
        <-> c = None \/ c = Some "").
Proof.
  split; intros c sun; split.
  - destruct c as [n|]; [|reflexivity]. intros Ht. exfalso. revert Ht.
    unfold ClimaCellWeatherEntity._translate_condition.
    destruct (WeatherCode n) as [w|]; [|discriminate].
    destruct (bool_decide _), sun; apply fmap_Some_not_None.
  - now intros ->.
  - destruct c as [c|]; [|now left]. intros Ht.
    destruct (String.eqb_spec c "") as [->|Hne]; [now right|].
    exfalso. revert Ht.
    unfold ClimaCellV3WeatherEntity._translate_condition.
    apply String.eqb_neq in Hne. rewrite Hne.
    destruct (contains _ _), sun; apply fmap_Some_not_None.
  - now intros [->| ->].
Qed.

(** X11. The sun's position matters for clear-type conditions only: when
    a translation differs between day and night, the condition is a v4
    code that is [CLEAR] or [MOSTLY_CLEAR], respectively a v3 string that
    contains ['clear'] in some letter case.  For every other input, also
    one that raises, day and night give the same. *)
Theorem X11_only_clear_conditions_depend_on_the_sun :
  (forall c,
     ClimaCellWeatherEntity._translate_condition c true
     <> ClimaCellWeatherEntity._translate_condition c false ->
     exists n w, c = Some n /\ WeatherCode n = Some w
                 /\ (w = CLEAR \/ w = MOSTLY_CLEAR))
  /\ (forall c,
        ClimaCellV3WeatherEntity._translate_condition c true
        <> ClimaCellV3WeatherEntity._translate_condition c false ->
        exists s, c = Some s /\ contains "clear" (lower s) = true).
Proof.
  split; intros c Hdiff.
  - destruct c as [n|]; [|now destruct Hdiff].
    unfold ClimaCellWeatherEntity._translate_condition in Hdiff.
    destruct (WeatherCode n) as [w|] eqn:Hw; [|now destruct Hdiff].
    destruct (bool_decide (w = CLEAR \/ w = MOSTLY_CLEAR)) eqn:Hc;
      [|now destruct Hdiff].
    apply bool_decide_eq_true in Hc. now exists n, w.
  - destruct c as [s|]; [|now destruct Hdiff].
    unfold ClimaCellV3WeatherEntity._translate_condition in Hdiff.
    destruct (String.eqb s ""); [now destruct Hdiff|].
    destruct (contains "clear" (lower s)) eqn:Hc; [|now destruct Hdiff].
    now exists s.
Qed.

(** X12. The v3 entity recognises a clear-type condition whatever its
    letter case and wherever ['clear'] stands in it, and does not look it
    up in the v3 table: with [day] and [night] the entries of the clear
    table, such a condition and its lower-cased form both translate to
    [day] when the sun is up and to [night] when it is not. *)
Theorem X12_v3_clear_is_recognised_in_any_letter_case
    (day night : string) (c : string) (sun : bool) :
  CLEAR_CONDITIONS !! "day" = Some day ->
  CLEAR_CONDITIONS !! "night" = Some night ->
  contains "clear" (lower c) = true ->
  ClimaCellV3WeatherEntity._translate_condition (Some c) sun
  = Ok (Some (if sun then day else night))
  /\ ClimaCellV3WeatherEntity._translate_condition (Some (lower c)) sun
     = Ok (Some (if sun then day else night)).
Proof.
  intros Hday Hnight Hc.
  assert (Hne : forall s, contains "clear" (lower s) = true -> s <> "")
    by (intros s Hs ->; discriminate).
  assert (Hgo : forall s, contains "clear" (lower s) = true ->
            ClimaCellV3WeatherEntity._translate_condition (Some s) sun
            = Ok (Some (if sun then day else night))).
  { intros s Hs. rewrite (v3_translate_nonempty s sun (Hne s Hs)), Hs.
    destruct sun; [rewrite (getitem_Some _ _ _ Hday) | rewrite (getitem_Some _ _ _ Hnight)];
      reflexivity. }
  split; apply Hgo; [exact Hc | now rewrite lower_idem].
Qed.

(** X13. Without current conditions in the payload the two entities part
    ways: every current reading of the v4 entity is [None] and its extra
    attributes are all [None], with no exception, while every current
    reading of the v3 entity, its condition and its extra attributes
    raise [KeyError]. *)
Theorem X13_without_current_conditions_v4_is_empty_and_v3_raises :
  (forall self : Entity ClimaCellWeatherEntity.Data,
     ClimaCellWeatherEntity.CURRENT (coordinator_data self) = None ->
     ClimaCellWeatherEntity.temperature self = None
     /\ ClimaCellWeatherEntity.pressure self = None
     /\ ClimaCellWeatherEntity.humidity self = None
     /\ ClimaCellWeatherEntity.wind_speed self = None
     /\ ClimaCellWeatherEntity.wind_bearing self = None
     /\ ClimaCellWeatherEntity.ozone self = None
     /\ ClimaCellWeatherEntity.visibility self = None
     /\ ClimaCellWeatherEntity.condition self = Ok None
     /\ ClimaCellWeatherEntity.extra_state_attributes self
        = Ok {| ATTR_CLOUD_COVER := None; ATTR_WIND_GUST := None;
                ATTR_PRECIPITATION_TYPE := None |})
  /\ (forall self : Entity ClimaCellV3WeatherEntity.Data,
        ClimaCellV3WeatherEntity.CURRENT (coordinator_data self) = None ->
        ClimaCellV3WeatherEntity.temperature self = Raise KeyError
        /\ ClimaCellV3WeatherEntity.pressure self = Raise KeyError
        /\ ClimaCellV3WeatherEntity.humidity self = Raise KeyError
        /\ ClimaCellV3WeatherEntity.wind_speed self = Raise KeyError
        /\ ClimaCellV3WeatherEntity.wind_bearing self = Raise KeyError
        /\ ClimaCellV3WeatherEntity.ozone self = Raise KeyError
        /\ ClimaCellV3WeatherEntity.visibility self = Raise KeyError
        /\ ClimaCellV3WeatherEntity.condition self = Raise KeyError
        /\ ClimaCellV3WeatherEntity.extra_state_attributes self = Raise KeyError).
Proof.
  split; intros self Hcur.
  - unfold ClimaCellWeatherEntity.temperature, ClimaCellWeatherEntity.pressure,
      ClimaCellWeatherEntity.humidity, ClimaCellWeatherEntity.wind_speed,
      ClimaCellWeatherEntity.wind_bearing, ClimaCellWeatherEntity.ozone,
      ClimaCellWeatherEntity.visibility, ClimaCellWeatherEntity.condition,
      ClimaCellWeatherEntity.extra_state_attributes,
      BaseClimaCellWeatherEntity.extra_state_attributes,
      ClimaCellWeatherEntity.precipitation_type, ClimaCellWeatherEntity.wind_gust,
      ClimaCellWeatherEntity.cloud_cover,
      ClimaCellWeatherEntity._get_current_property.
    rewrite Hcur. simpl. rewrite !andb_false_r. now split_and!.
  - unfold ClimaCellV3WeatherEntity.temperature, ClimaCellV3WeatherEntity.pressure,
      ClimaCellV3WeatherEntity.humidity, ClimaCellV3WeatherEntity.wind_speed,
      ClimaCellV3WeatherEntity.wind_bearing, ClimaCellV3WeatherEntity.ozone,
      ClimaCellV3WeatherEntity.visibility, ClimaCellV3WeatherEntity.condition,
      ClimaCellV3WeatherEntity.extra_state_attributes,
      ClimaCellV3WeatherEntity.wind_gust, ClimaCellV3WeatherEntity.current.
    rewrite Hcur. now split_and!.
Qed.

(** X14. The v4 entity reports a precipitation type in lower case, the
    lower-cased name of the vendor's enum member; a code that is no member
    raises [ValueError], and then the extra attributes raise as a whole,
    whatever the wind gust and the cloud cover are. *)
Theorem X14_v4_precipitation_type_is_lower_case_or_raises
    (self : Entity ClimaCellWeatherEntity.Data) :
  (forall name,
     ClimaCellWeatherEntity.precipitation_type self = Ok (Some name) ->
     has_upper name = false
     /\ exists n member,
          ClimaCellWeatherEntity._get_current_property self
            ClimaCellWeatherEntity.CC_ATTR_PRECIPITATION_TYPE = Some n
          /\ PrecipitationType_name n = Some member
          /\ name = lower member)
  /\ (forall n,
        ClimaCellWeatherEntity._get_current_property self
          ClimaCellWeatherEntity.CC_ATTR_PRECIPITATION_TYPE = Some n ->
        PrecipitationType_name n = None ->
        ClimaCellWeatherEntity.precipitation_type self = Raise ValueError
        /\ ClimaCellWeatherEntity.extra_state_attributes self = Raise ValueError).
Proof.
  split.
  - intros name. unfold ClimaCellWeatherEntity.precipitation_type.
    destruct (ClimaCellWeatherEntity._get_current_property self _) as [n|];
      [|discriminate].
    destruct (PrecipitationType_name n) as [member|] eqn:Hm; [|discriminate].
    intros [= <-]. split; [apply lower_no_upper|]. now exists n, member.
  - intros n Hn Hm.
    assert (Hp : ClimaCellWeatherEntity.precipitation_type self = Raise ValueError)
      by (unfold ClimaCellWeatherEntity.precipitation_type; now rewrite Hn, Hm).
    split; [exact Hp|].
    unfold ClimaCellWeatherEntity.extra_state_attributes,
      BaseClimaCellWeatherEntity.extra_state_attributes.
    now rewrite Hp.
Qed.

End ClimaCellConditionsMore.

(** ** The ClimaCell weather entities: more on forecasts *)

Section ClimaCellForecastsMore.
Import Text climacell.
Context `{Host}.

(** A guard on the reading's truth value may be dropped in front of a map
    that keeps zero at zero. *)
Lemma guarded_map (f : Qc -> Qc) (x : option Qc) :
  f 0%Qc = 0%Qc -> (if truthy x then f <$> x else x) = f <$> x.
Proof.
  intros Hf. destruct x as [q|]; simpl; [|reflexivity].
  destruct (is_zero q) eqn:Hq; simpl; [|reflexivity].
  apply is_zero_spec in Hq as ->. now rewrite Hf.
Qed.

Lemma precipitation_amount_zero t timestep :
  precipitation_amount t timestep 0%Qc = 0%Qc.
Proof. destruct t; simpl; [ring | reflexivity | unfold Qcdiv; ring]. Qed.

(** The v4 loop body depends on the entity through its unit system, its
    forecast type and its timestep only. *)
Lemma v4_forecast_entry_ext (self1 self2 : Entity ClimaCellWeatherEntity.Data) f dt :
  is_metric self1 = is_metric self2 ->
  forecast_type self1 = forecast_type self2 ->
  CONF_TIMESTEP self1 = CONF_TIMESTEP self2 ->
  ClimaCellWeatherEntity.forecast_entry self1 f dt
  = ClimaCellWeatherEntity.forecast_entry self2 f dt.
Proof.
  intros Hm Ht Hs. unfold ClimaCellWeatherEntity.forecast_entry,
    BaseClimaCellWeatherEntity._forecast_dict.
  now rewrite Hm, Ht, Hs.
Qed.

Lemma v4_forecast_loop_ext (self1 self2 : Entity ClimaCellWeatherEntity.Data) max :
  is_metric self1 = is_metric self2 ->
  forecast_type self1 = forecast_type self2 ->
  CONF_TIMESTEP self1 = CONF_TIMESTEP self2 ->
  forall raw tick acc count,
    ClimaCellWeatherEntity.forecast_loop self1 max raw tick acc count
    = ClimaCellWeatherEntity.forecast_loop self2 max raw tick acc count.
Proof.
  intros Hm Ht Hs. induction raw as [|f raw IH]; intros tick acc count; simpl.
  - reflexivity.
  - destruct (parse_datetime _) as [dt|]; [|reflexivity].
    rewrite (v4_forecast_entry_ext self1 self2 f dt Hm Ht Hs), !IH.
    destruct (date_lt _ _); [reflexivity|].
    destruct (ClimaCellWeatherEntity.forecast_entry self2 f dt); [|reflexivity].
    now rewrite IH.
Qed.

(** The loop walks over a run of past entries without reading their
    values, without appending and without counting. *)
Lemma v4_forecast_loop_skips_past (self : Entity ClimaCellWeatherEntity.Data) max :
  forall pre rest tick acc count,
    (forall i f, pre !! i = Some f ->
       exists dt,
         parse_datetime (ClimaCellWeatherEntity.CC_ATTR_TIMESTAMP f) = Some dt
         /\ date_lt (dt_date dt) (dt_date (utcnow (tick + i))) = true) ->
    ClimaCellWeatherEntity.forecast_loop self max (pre ++ rest) tick acc count
    = ClimaCellWeatherEntity.forecast_loop self max rest (tick + length pre) acc count.
Proof.
  induction pre as [|f pre IH]; intros rest tick acc count Hpast; simpl.
  - now rewrite Nat.add_0_r.
  - destruct (Hpast 0%nat f eq_refl) as (dt & -> & Hlt).
    rewrite Nat.add_0_r in Hlt. rewrite Hlt.
    rewrite IH; [f_equal; lia|].
    intros i g Hg. destruct (Hpast (S i) g Hg) as (dt' & Hdt' & Hlt').
    exists dt'. split; [exact Hdt'|]. now replace (S tick + i)%nat with (tick + S i)%nat by lia.
Qed.

Lemma past_prefix (pre rest : list ClimaCellWeatherEntity.RawForecast) :
  (forall i, (i < length pre)%nat -> past (pre ++ rest) i) ->
  forall i f, pre !! i = Some f ->
    exists dt,
      parse_datetime (ClimaCellWeatherEntity.CC_ATTR_TIMESTAMP f) = Some dt
      /\ date_lt (dt_date dt) (dt_date (utcnow (0 + i))) = true.
Proof.
  intros Hpast i f Hf.
  destruct (Hpast i (lookup_lt_Some _ _ _ Hf)) as (g & dt & Hg & Hdt & Hlt).
  rewrite (lookup_app_l_Some _ _ _ _ Hf) in Hg. injection Hg as <-.
  now exists dt.
Qed.

(** X16. A v4 payload that is not empty and holds past entries only gives
    the empty list, not [None]: the entries are dropped whatever their
    values and whatever the cap. *)
Theorem X16_v4_payload_of_past_entries_gives_the_empty_list
    (self : Entity ClimaCellWeatherEntity.Data)
    (raw : list ClimaCellWeatherEntity.RawForecast) :
  ClimaCellWeatherEntity.raw_forecasts self = Some raw ->
  raw <> [] ->
  (forall i, (i < length raw)%nat -> past raw i) ->
  ClimaCellWeatherEntity.forecast self = Ok (Some []).
Proof.
  intros Hraw Hne Hpast. unfold ClimaCellWeatherEntity.forecast. rewrite Hraw.
  destruct raw as [|f raw]; [contradiction|].
  assert (Hp : forall i, (i < length (f :: raw))%nat -> past ((f :: raw) ++ []) i)
    by (intros i Hi; rewrite app_nil_r; auto).
  pose proof (v4_forecast_loop_skips_past self
                (MAX_FORECASTS (forecast_type self)) (f :: raw) [] 0%nat [] 0%Z
                (past_prefix (f :: raw) [] Hp)) as Hskip.
  rewrite app_nil_r in Hskip. now rewrite Hskip.
Qed.

Lemma v4_forecast_loop_past_values (self : Entity ClimaCellWeatherEntity.Data) max
    f dt values rest :
  parse_datetime (ClimaCellWeatherEntity.CC_ATTR_TIMESTAMP f) = Some dt ->
  forall pre tick acc count,
    date_lt (dt_date dt) (dt_date (utcnow (tick + length pre))) = true ->
    ClimaCellWeatherEntity.forecast_loop self max (pre ++ f :: rest) tick acc count
    = ClimaCellWeatherEntity.forecast_loop self max
        (pre ++ with_values f values :: rest) tick acc count.
Proof.
  intros Hdt. induction pre as [|x pre IH]; intros tick acc count Hlt; simpl.
  - rewrite Nat.add_0_r in Hlt. now rewrite Hdt, Hlt.
  - assert (Hlt' : date_lt (dt_date dt) (dt_date (utcnow (S tick + length pre))) = true)
      by (now replace (S tick + length pre)%nat with (tick + length (x :: pre))%nat
            by (simpl; lia)).
    destruct (parse_datetime (ClimaCellWeatherEntity.CC_ATTR_TIMESTAMP x)) as [dx|];
      [|reflexivity].
    destruct (date_lt (dt_date dx) _); [now apply IH|].
    destruct (ClimaCellWeatherEntity.forecast_entry self x dx); [|reflexivity].
    destruct (_ =? _)%Z; [reflexivity | now apply IH].
Qed.

Lemma v4_forecast_with_payload (self : Entity ClimaCellWeatherEntity.Data) raw :
  raw <> [] ->
  ClimaCellWeatherEntity.forecast (with_payload self raw)
  = Some <$> ClimaCellWeatherEntity.forecast_loop self
               (MAX_FORECASTS (forecast_type self)) raw 0 [] 0.
Proof.
  intros Hne. unfold ClimaCellWeatherEntity.forecast. simpl.
  destruct raw as [|f raw]; [contradiction|].
  now rewrite (v4_forecast_loop_ext (with_payload self (f :: raw)) self _
                 eq_refl eq_refl eq_refl).
Qed.

(** X17. The v4 entity drops a past entry before reading its values: a
    payload and the same payload with other values in a past entry, also
    values that would not translate, give the same forecast. *)
Theorem X17_v4_values_of_a_past_entry_are_never_read
    (self : Entity ClimaCellWeatherEntity.Data)
    (pre rest : list ClimaCellWeatherEntity.RawForecast)
    (f : ClimaCellWeatherEntity.RawForecast) (values : ClimaCellWeatherEntity.Values) :
  past (pre ++ f :: rest) (length pre) ->
  ClimaCellWeatherEntity.forecast (with_payload self (pre ++ f :: rest))
  = ClimaCellWeatherEntity.forecast
      (with_payload self (pre ++ with_values f values :: rest)).
Proof.
  intros (g & dt & Hg & Hdt & Hlt).
  rewrite list_lookup_middle in Hg by reflexivity. injection Hg as <-.
  rewrite !v4_forecast_with_payload by (now destruct pre).
  now rewrite (v4_forecast_loop_past_values self _ f dt values rest Hdt pre 0%nat).
Qed.

Lemma v4_forecast_nonempty (self : Entity ClimaCellWeatherEntity.Data) raw :
  ClimaCellWeatherEntity.raw_forecasts self = Some raw ->
  raw <> [] ->
  ClimaCellWeatherEntity.forecast self
  = Some <$> ClimaCellWeatherEntity.forecast_loop self
               (MAX_FORECASTS (forecast_type self)) raw 0 [] 0.
Proof.
  intros Hraw Hne. unfold ClimaCellWeatherEntity.forecast. rewrite Hraw.
  now destruct raw.
Qed.

(** X18. A forecast is all or nothing.  The v3 entity raises as soon as
    one payload entry cannot be built.  The v4 entity, past a run of past
    entries, raises the exception of the first entry that is not past
    and cannot be built, and raises [AttributeError] if the first entry
    that follows has a timestamp that does not parse. *)
Theorem X18_a_forecast_is_all_or_nothing :
  (forall (self : Entity ClimaCellV3WeatherEntity.Data) raw f e,
     ClimaCellV3WeatherEntity.raw_forecasts self = Some raw ->
     f ∈ raw ->
     ClimaCellV3WeatherEntity.forecast_entry self f = Raise e ->
     raises (ClimaCellV3WeatherEntity.forecast self))
  /\ (forall (self : Entity ClimaCellWeatherEntity.Data) pre f rest dt e,
        ClimaCellWeatherEntity.raw_forecasts self = Some (pre ++ f :: rest)%list ->
        (forall i, (i < length pre)%nat -> past (pre ++ f :: rest)%list i) ->
        parse_datetime (ClimaCellWeatherEntity.CC_ATTR_TIMESTAMP f) = Some dt ->
        date_lt (dt_date dt) (dt_date (utcnow (length pre))) = false ->
        ClimaCellWeatherEntity.forecast_entry self f dt = Raise e ->
        ClimaCellWeatherEntity.forecast self = Raise e)
  /\ (forall (self : Entity ClimaCellWeatherEntity.Data) pre f rest,
        ClimaCellWeatherEntity.raw_forecasts self = Some (pre ++ f :: rest)%list ->
        (forall i, (i < length pre)%nat -> past (pre ++ f :: rest)%list i) ->
        parse_datetime (ClimaCellWeatherEntity.CC_ATTR_TIMESTAMP f) = None ->
        ClimaCellWeatherEntity.forecast self = Raise AttributeError).
Proof.
  split_and!.
  - intros self raw f e Hraw Hin Hf.
    unfold ClimaCellV3WeatherEntity.forecast. rewrite Hraw.
    destruct raw as [|g raw]; [now apply elem_of_nil in Hin|].
    pose proof (v3_forecast_loop_spec self (g :: raw) []) as Hspec.
    destruct (ClimaCellV3WeatherEntity.forecast_loop self (g :: raw) []) as [out|e'];
      [|now exists e'].
    exfalso. destruct (proj1 (Hspec out) eq_refl) as (new & _ & Hall).
    apply list_elem_of_lookup in Hin as [i Hi].
    destruct (Forall2_lookup_l _ _ _ _ _ Hall Hi) as (entry & _ & Hentry).
    congruence.
  - intros self pre f rest dt e Hraw Hpast Hdt Hlt Hf.
    rewrite (v4_forecast_nonempty self _ Hraw) by (now destruct pre).
    rewrite (v4_forecast_loop_skips_past self _ pre (f :: rest) 0%nat [] 0%Z
               (past_prefix pre (f :: rest) Hpast)).
    simpl. now rewrite Hdt, Hlt, Hf.
  - intros self pre f rest Hraw Hpast Hdt.
    rewrite (v4_forecast_nonempty self _ Hraw) by (now destruct pre).
    rewrite (v4_forecast_loop_skips_past self _ pre (f :: rest) 0%nat [] 0%Z
               (past_prefix pre (f :: rest) Hpast)).
    simpl. now rewrite Hdt.
Qed.

(** X19. A daily forecast is translated as by day, whatever the sun does:
    its condition is the translation of the vendor's condition with the
    sun up, and for the v3 entity its time is the start of the local day
    of the timestamp.  An hourly or nowcast forecast is translated with
    the sun as it stands at the forecast's own time, which is also the
    time it reports. *)
Theorem X19_daily_forecasts_are_translated_as_by_day :
  (forall (self : Entity ClimaCellWeatherEntity.Data) f dt entry,
     ClimaCellWeatherEntity.forecast_entry self f dt = Ok entry ->
     ATTR_FORECAST_TIME entry = Some (isoformat dt)
     /\ ClimaCellWeatherEntity._translate_condition
          (ClimaCellWeatherEntity.CC_ATTR_CONDITION (ClimaCellWeatherEntity.values f))
          (match forecast_type self with
           | DAILY => true
           | _ => is_up (Some dt)
           end)
        = Ok (ATTR_FORECAST_CONDITION entry))
  /\ (forall (self : Entity ClimaCellV3WeatherEntity.Data) f entry,
        ClimaCellV3WeatherEntity.forecast_entry self f = Ok entry ->
        exists timestamp,
          _get_cc_value_str f CC_V3_ATTR_TIMESTAMP = Some timestamp
          /\ match forecast_type self with
             | DAILY =>
                 ATTR_FORECAST_TIME entry
                 = Some (isoformat (start_of_local_day (parse_datetime timestamp)))
                 /\ ClimaCellV3WeatherEntity._translate_condition
                      (_get_cc_value_str f CC_V3_ATTR_CONDITION) true
                    = Ok (ATTR_FORECAST_CONDITION entry)
             | _ =>
                 exists dt,
                   parse_datetime timestamp = Some dt
                   /\ ATTR_FORECAST_TIME entry = Some (isoformat dt)
                   /\ ClimaCellV3WeatherEntity._translate_condition
                        (_get_cc_value_str f CC_V3_ATTR_CONDITION) (is_up (Some dt))
                      = Ok (ATTR_FORECAST_CONDITION entry)
             end).
Proof.
  split.
  - intros self f dt entry. unfold ClimaCellWeatherEntity.forecast_entry.
    destruct (forecast_type self);
      [ | | destruct (truthy _); [destruct (CONF_TIMESTEP self); [|discriminate]|] ];
      simpl; unfold BaseClimaCellWeatherEntity._forecast_dict;
      destruct (ClimaCellWeatherEntity._translate_condition _ _) as [tc|e];
      simpl; try discriminate; intros [= <-]; now split.
  - intros self f entry. unfold ClimaCellV3WeatherEntity.forecast_entry.
    destruct (_get_cc_value_str f CC_V3_ATTR_TIMESTAMP) as [ts|]; [|discriminate].
    intros Hentry. exists ts. split; [reflexivity|]. revert Hentry.
    destruct (forecast_type self);
      [ destruct (v3_getitem f CC_V3_ATTR_TEMPERATURE); [|discriminate]
      |
      | destruct (truthy _); [destruct (CONF_TIMESTEP self); [|discriminate]|] ];
      unfold BaseClimaCellWeatherEntity._forecast_dict;
      destruct (ClimaCellV3WeatherEntity._translate_condition _ _) as [tc|e] eqn:Ht;
      simpl; try discriminate.
    + intros [= <-]. now split.
    + destruct (parse_datetime ts) as [dt|]; [|discriminate].
      intros [= <-]. now exists dt.
    + destruct (parse_datetime ts) as [dt|]; [|discriminate].
      intros [= <-]. now exists dt.
    + destruct (parse_datetime ts) as [dt|]; [|discriminate].
      intros [= <-]. now exists dt.
Qed.

Lemma forecast_dict_precipitation {Data Cond : Type}
    (translate : option Cond -> bool -> result PyExc (option string))
    (self : Entity Data) (dt : option datetime) (use : bool) (c : option Cond)
    (p pp t tl wd ws : option Qc) (entry : Forecast) :
  BaseClimaCellWeatherEntity._forecast_dict translate self dt use c p pp t tl wd ws
  = Ok entry ->
  ATTR_FORECAST_PRECIPITATION entry
  = if is_metric self && truthy p then inches_to_millimeters <$> p else p.
Proof.
  unfold BaseClimaCellWeatherEntity._forecast_dict.
  destruct (if use then _ else _) as [tc|e]; [|discriminate].
  destruct dt as [d|]; [|discriminate].
  simpl. now intros [= <-].
Qed.

(** X20. The v4 entity reports precipitation as an amount: for every
    reading of the vendor's hourly rate, a daily forecast holds 24 times
    the rate, a nowcast the rate over 60 times the timestep and an hourly
    forecast the rate itself, converted to millimetres when the unit
    system is metric.  The host's distance converter is taken to keep
    zero at zero. *)
Theorem X20_v4_precipitation_is_an_amount_per_forecast_type
    (self : Entity ClimaCellWeatherEntity.Data)
    (f : ClimaCellWeatherEntity.RawForecast) (dt : datetime) (entry : Forecast)
    (timestep : Z) :
  (forall a b, distance_convert 0%Qc a b = 0%Qc) ->
  (forecast_type self = NOWCAST -> CONF_TIMESTEP self = Some timestep) ->
  ClimaCellWeatherEntity.forecast_entry self f dt = Ok entry ->
  ATTR_FORECAST_PRECIPITATION entry
  = at_boundary (is_metric self) inches_to_millimeters
      (precipitation_amount (forecast_type self) timestep
         <$> ClimaCellWeatherEntity.CC_ATTR_PRECIPITATION
               (ClimaCellWeatherEntity.values f)).
Proof.
  intros Hd Hts Hentry. pose proof (inches_to_millimeters_zero Hd) as Hmm.
  set (p := ClimaCellWeatherEntity.CC_ATTR_PRECIPITATION
              (ClimaCellWeatherEntity.values f)).
  pose proof (guarded_map (precipitation_amount (forecast_type self) timestep) p
                (precipitation_amount_zero _ _)) as Hamount.
  unfold ClimaCellWeatherEntity.forecast_entry in Hentry. fold p in Hentry.
  destruct (forecast_type self) eqn:Ht.
  - unfold mbind, result_bind in Hentry. cbv beta iota in Hentry.
    apply forecast_dict_precipitation in Hentry.
    rewrite Hentry, (guarded_conversion _ inches_to_millimeters _ Hmm).
    f_equal. exact Hamount.
  - unfold mbind, result_bind in Hentry. cbv beta iota in Hentry.
    apply forecast_dict_precipitation in Hentry.
    rewrite Hentry, (guarded_conversion _ inches_to_millimeters _ Hmm).
    f_equal. now destruct p.
  - rewrite (Hts eq_refl) in Hentry.
    destruct (truthy p) eqn:Hp; unfold mbind, result_bind in Hentry;
      cbv beta iota in Hentry; apply forecast_dict_precipitation in Hentry;
      rewrite Hentry, (guarded_conversion _ inches_to_millimeters _ Hmm);
      f_equal; first [reflexivity | exact Hamount].
Qed.


(** X22. A v3 entry whose timestamp does not parse: a daily entity builds
    its forecast all the same, dated by what the host's
    [start_of_local_day] makes of no datetime, as soon as the entry lists
    its temperatures and its condition translates; an hourly or nowcast
    entity raises. *)
Theorem X22_v3_entry_with_a_timestamp_that_does_not_parse
    (self : Entity ClimaCellV3WeatherEntity.Data) (f : V3Dict) (timestamp : string) :
  _get_cc_value_str f CC_V3_ATTR_TIMESTAMP = Some timestamp ->
  parse_datetime timestamp = None ->
  (forecast_type self = DAILY ->
   is_Some (v3_getitem f CC_V3_ATTR_TEMPERATURE) ->
   returns (ClimaCellV3WeatherEntity._translate_condition
              (_get_cc_value_str f CC_V3_ATTR_CONDITION) true) ->
   exists entry,
     ClimaCellV3WeatherEntity.forecast_entry self f = Ok entry
     /\ ATTR_FORECAST_TIME entry = Some (isoformat (start_of_local_day None)))
  /\ (forecast_type self <> DAILY ->
      raises (ClimaCellV3WeatherEntity.forecast_entry self f)).
Proof.
  intros Hstamp Hparse. unfold ClimaCellV3WeatherEntity.forecast_entry.
  rewrite Hstamp, Hparse. split.
  - intros -> [items ->] [tc Htc].
    unfold BaseClimaCellWeatherEntity._forecast_dict. rewrite Htc. simpl.
    eexists. split; reflexivity.
  - intros Hnot. destruct (forecast_type self); [contradiction | |].
    + unfold BaseClimaCellWeatherEntity._forecast_dict.
      destruct (ClimaCellV3WeatherEntity._translate_condition _ _) as [tc|e];
        simpl; now eexists.
    + destruct (truthy _); [destruct (CONF_TIMESTEP self); [|now eexists]|];
        unfold BaseClimaCellWeatherEntity._forecast_dict;
        destruct (ClimaCellV3WeatherEntity._translate_condition _ _) as [tc|e];
        simpl; now eexists.
Qed.

Lemma same_but_units_refl entry : same_but_units entry entry.
Proof. now split_and!. Qed.

(** The v4 loop body under two unit systems: the same exception, or
    forecasts that agree up to units. *)
Lemma v4_forecast_entry_units (self : Entity ClimaCellWeatherEntity.Data) metric f dt :
  match ClimaCellWeatherEntity.forecast_entry (with_units metric self) f dt,
        ClimaCellWeatherEntity.forecast_entry self f dt with
  | Ok a, Ok b => same_but_units a b
  | Raise e1, Raise e2 => e1 = e2
  | _, _ => False
  end.
Proof.
  unfold ClimaCellWeatherEntity.forecast_entry. simpl.
  destruct (forecast_type self);
    [ | | destruct (truthy _); [destruct (CONF_TIMESTEP self); [|reflexivity]|] ];
    unfold mbind, result_bind; cbv beta iota;
    unfold BaseClimaCellWeatherEntity._forecast_dict;
    destruct (ClimaCellWeatherEntity._translate_condition _ _) as [tc|e];
    simpl; try reflexivity; now split_and!.
Qed.

Lemma v4_forecast_loop_units (self : Entity ClimaCellWeatherEntity.Data) metric max :
  forall raw tick acc1 acc2 count,
    Forall2 same_but_units acc1 acc2 ->
    match ClimaCellWeatherEntity.forecast_loop (with_units metric self) max raw tick
            acc1 count,
          ClimaCellWeatherEntity.forecast_loop self max raw tick acc2 count with
    | Ok l1, Ok l2 => Forall2 same_but_units l1 l2
    | Raise e1, Raise e2 => e1 = e2
    | _, _ => False
    end.
Proof.
  induction raw as [|f raw IH]; intros tick acc1 acc2 count Hacc; simpl.
  - exact Hacc.
  - destruct (parse_datetime _) as [dt|]; [|reflexivity].
    destruct (date_lt _ _); [now apply IH|].
    pose proof (v4_forecast_entry_units self metric f dt) as Hentry.
    destruct (ClimaCellWeatherEntity.forecast_entry (with_units metric self) f dt)
      as [a|e1],
      (ClimaCellWeatherEntity.forecast_entry self f dt) as [b|e2];
      try contradiction; [|exact Hentry].
    assert (Hacc' : Forall2 same_but_units (acc1 ++ [a]) (acc2 ++ [b]))
      by (apply Forall2_app; [exact Hacc | now constructor]).
    destruct (_ =? _)%Z; [exact Hacc' | now apply IH].
Qed.

(** X15. The unit system reaches wind speed, wind gust, pressure,
    visibility and a forecast's precipitation and wind speed, and nothing
    else.  Under either unit system the v4 entity gives the same
    temperature, always in degrees Fahrenheit, the same humidity, wind
    bearing, ozone, condition, cloud cover and precipitation type, and its
    forecast raises the same exception or holds the same entries in the
    same order, equal in time, condition, precipitation probability,
    temperatures and wind bearing. *)
Theorem X15_units_change_nothing_but_the_converted_readings
    (self : Entity ClimaCellWeatherEntity.Data) (metric : bool) :
  ClimaCellWeatherEntity.temperature (with_units metric self)
  = ClimaCellWeatherEntity.temperature self
  /\ ClimaCellWeatherEntity.temperature_unit (with_units metric self) = TEMP_FAHRENHEIT
  /\ ClimaCellWeatherEntity.humidity (with_units metric self)
     = ClimaCellWeatherEntity.humidity self
  /\ ClimaCellWeatherEntity.wind_bearing (with_units metric self)
     = ClimaCellWeatherEntity.wind_bearing self
  /\ ClimaCellWeatherEntity.ozone (with_units metric self)
     = ClimaCellWeatherEntity.ozone self
  /\ ClimaCellWeatherEntity.condition (with_units metric self)
     = ClimaCellWeatherEntity.condition self
  /\ (forall attrs,
        ClimaCellWeatherEntity.extra_state_attributes self = Ok attrs ->
        exists attrs',
          ClimaCellWeatherEntity.extra_state_attributes (with_units metric self)
          = Ok attrs'
          /\ ATTR_CLOUD_COVER attrs' = ATTR_CLOUD_COVER attrs
          /\ ATTR_PRECIPITATION_TYPE attrs' = ATTR_PRECIPITATION_TYPE attrs)
  /\ agree_up_to_units
       (ClimaCellWeatherEntity.forecast (with_units metric self))
       (ClimaCellWeatherEntity.forecast self).
Proof.
  split_and!; try reflexivity.
  - intros attrs. unfold ClimaCellWeatherEntity.extra_state_attributes,
      BaseClimaCellWeatherEntity.extra_state_attributes.
    change (ClimaCellWeatherEntity.precipitation_type (with_units metric self))
      with (ClimaCellWeatherEntity.precipitation_type self).
    destruct (ClimaCellWeatherEntity.precipitation_type self) as [ptype|e];
      [|discriminate].
    simpl. intros [= <-]. eexists. split; [reflexivity|]. now split.
  - unfold agree_up_to_units, ClimaCellWeatherEntity.forecast.
    change (ClimaCellWeatherEntity.raw_forecasts (with_units metric self))
      with (ClimaCellWeatherEntity.raw_forecasts self).
    destruct (ClimaCellWeatherEntity.raw_forecasts self) as [[|f raw]|]; try exact I.
    pose proof (v4_forecast_loop_units self metric
                  (MAX_FORECASTS (forecast_type self)) (f :: raw) 0%nat [] [] 0%Z
                  (List.Forall2_nil _)) as Hloop.
    change (forecast_type (with_units metric self)) with (forecast_type self).
    destruct (ClimaCellWeatherEntity.forecast_loop (with_units metric self) _ _ _ _ _),
      (ClimaCellWeatherEntity.forecast_loop self _ _ _ _ _); exact Hloop.
Qed.

(** X23. Setting up a config entry hands the host three entities, one for
    each forecast type, in the order daily, hourly, nowcast; all three are
    made for the entry's API version and are of one class, the v3 class
    exactly when the version is 3 and the v4 class for any other. *)
Theorem X23_setup_makes_one_entity_per_forecast_type (api_version : Z) :
  List.map new_forecast_type (async_setup_entry api_version) = [DAILY; HOURLY; NOWCAST]
  /\ (forall t, length (List.filter (fun e => bool_decide (new_forecast_type e = t))
                          (async_setup_entry api_version)) = 1%nat)
  /\ Forall (fun e =>
               new_api_version e = api_version
               /\ (new_class e = ClimaCellV3WeatherEntityClass <-> api_version = 3%Z)
               /\ (new_class e = ClimaCellWeatherEntityClass <-> api_version <> 3%Z))
            (async_setup_entry api_version).
Proof.
  split_and!.
  - reflexivity.
  - now intros [| |].
  - unfold async_setup_entry.
    destruct (Z.eqb_spec api_version 3) as [->|Hne]; simpl;
      repeat constructor; simpl; try reflexivity; try congruence; try discriminate.
Qed.

End ClimaCellForecastsMore.

(** X10 on the sample tables: no condition under v4, the empty condition
    under v3. *)
Lemma X10_witness_missing_and_empty :
  climacell.ClimaCellWeatherEntity._translate_condition
    (H:=Sample.weather.host) None false = Ok None
  /\ climacell.ClimaCellV3WeatherEntity._translate_condition
       (H:=Sample.weather.host) (Some "") true = Ok None.
Proof.
  destruct (X10_only_a_missing_condition_translates_to_none (H:=Sample.weather.host))
    as [H4 H3].
  split; [now apply H4 | apply H3; now right].
Defined.

(** X11 on the sample tables: code 1000 under v4 and ['Clear'] under v3
    translate differently by day and by night. *)
Lemma X11_witness_clear_code_and_name :
  (exists n w,
     Some 1000%Z = Some n
     /\ climacell.WeatherCode (Host:=Sample.weather.host) n = Some w
     /\ (w = climacell.CLEAR (Host:=Sample.weather.host)
         \/ w = climacell.MOSTLY_CLEAR (Host:=Sample.weather.host)))
  /\ (exists s, Some "Clear" = Some s
                /\ Text.contains "clear" (Text.lower s) = true).
Proof.
  destruct (X11_only_clear_conditions_depend_on_the_sun (H:=Sample.weather.host))
    as [H4 H3].
  split; [apply H4 | apply H3]; intros Heq; vm_compute in Heq; discriminate.
Defined.

(** X12 on the sample tables: ['Mostly_Clear'] at night. *)
Lemma X12_witness_mostly_clear_in_capitals :
  climacell.ClimaCellV3WeatherEntity._translate_condition
    (H:=Sample.weather.host) (Some "Mostly_Clear") false
  = Ok (Some "clear-night")
  /\ climacell.ClimaCellV3WeatherEntity._translate_condition
       (H:=Sample.weather.host) (Some (Text.lower "Mostly_Clear")) false
     = Ok (Some "clear-night").
Proof.
  exact (X12_v3_clear_is_recognised_in_any_letter_case (H:=Sample.weather.host)
           "sunny" "clear-night" "Mostly_Clear" false eq_refl eq_refl eq_refl).
Defined.

(** X13 on the sample host: two entities without current conditions. *)
Lemma X13_witness_no_current_conditions :
  climacell.ClimaCellWeatherEntity.condition (H:=Sample.weather.host)
    (Sample.weather.entity_v4_with false climacell.HOURLY None
       Sample.weather.stale_payload)
  = Ok None
  /\ climacell.ClimaCellV3WeatherEntity.condition (H:=Sample.weather.host)
       (Sample.weather.entity_v3_with climacell.HOURLY None [])
     = Raise climacell.KeyError.
Proof.
  destruct (X13_without_current_conditions_v4_is_empty_and_v3_raises
              (H:=Sample.weather.host)) as [H4 H3].
  split.
  - exact (proj1 (proj2 (proj2 (proj2 (proj2 (proj2 (proj2 (proj2
             (H4 (Sample.weather.entity_v4_with false climacell.HOURLY None
                    Sample.weather.stale_payload) eq_refl))))))))).
  - exact (proj1 (proj2 (proj2 (proj2 (proj2 (proj2 (proj2 (proj2
             (H3 (Sample.weather.entity_v3_with climacell.HOURLY None [])
                 eq_refl))))))))).
Defined.

(** X14 on the sample host: rain, and a precipitation type 7. *)
Lemma X14_witness_rain_and_unknown_type :
  Text.has_upper "rain" = false
  /\ climacell.ClimaCellWeatherEntity.extra_state_attributes (H:=Sample.weather.host)
       (Sample.weather.entity_v4 false Sample.weather.odd_precipitation_now)
     = Raise climacell.ValueError.
Proof.
  split.
  - exact (proj1 (proj1 (X14_v4_precipitation_type_is_lower_case_or_raises
                           (H:=Sample.weather.host)
                           (Sample.weather.entity_v4 false Sample.weather.rainy_now))
                    "rain" eq_refl)).
  - exact (proj2 (proj2 (X14_v4_precipitation_type_is_lower_case_or_raises
                           (H:=Sample.weather.host)
                           (Sample.weather.entity_v4 false
                              Sample.weather.odd_precipitation_now))
                    7%Z eq_refl eq_refl)).
Defined.

(** X15 on the sample host: the hourly payload under both unit systems. *)
Lemma X15_witness_hourly_payload_in_metric :
  climacell.agree_up_to_units
    (climacell.ClimaCellWeatherEntity.forecast (H:=Sample.weather.host)
       (climacell.with_units true
          (Sample.weather.entity_v4 false Sample.weather.rainy_now)))
    (climacell.ClimaCellWeatherEntity.forecast (H:=Sample.weather.host)
       (Sample.weather.entity_v4 false Sample.weather.rainy_now)).
Proof.
  exact (proj2 (proj2 (proj2 (proj2 (proj2 (proj2 (proj2
           (X15_units_change_nothing_but_the_converted_readings
              (H:=Sample.weather.host)
              (Sample.weather.entity_v4 false Sample.weather.rainy_now) true)))))))).
Defined.

(** X16 on the sample host: two hours of yesterday. *)
Lemma X16_witness_stale_payload :
  climacell.ClimaCellWeatherEntity.forecast (H:=Sample.weather.host)
    (Sample.weather.entity_v4_with false climacell.HOURLY None
       Sample.weather.stale_payload)
  = Ok (Some []).
Proof.
  apply (X16_v4_payload_of_past_entries_gives_the_empty_list (H:=Sample.weather.host)
           _ Sample.weather.stale_payload).
  - reflexivity.
  - discriminate.
  - intros i Hi. destruct i as [|[|i]]; simpl in Hi;
      [eexists _, _; split_and!; reflexivity
      |eexists _, _; split_and!; reflexivity
      |lia].
Defined.

(** X17 on the sample host: an hour of yesterday with rain, and the same
    hour with a code that is no weather code. *)
Lemma X17_witness_yesterday_with_an_unknown_code :
  climacell.ClimaCellWeatherEntity.forecast (H:=Sample.weather.host)
    (climacell.with_payload
       (Sample.weather.entity_v4 false Sample.weather.rainy_now)
       ([] ++ Sample.weather.hour_at "2021-04-09T23:00:00+00:00" 4001
           :: [Sample.weather.hour_at "2021-04-10T12:00:00+00:00" 1000])%list)
  = climacell.ClimaCellWeatherEntity.forecast (H:=Sample.weather.host)
      (climacell.with_payload
         (Sample.weather.entity_v4 false Sample.weather.rainy_now)
         ([] ++ climacell.with_values
                  (Sample.weather.hour_at "2021-04-09T23:00:00+00:00" 4001)
                  (climacell.ClimaCellWeatherEntity.values
                     (Sample.weather.hour_at "2021-04-09T23:00:00+00:00" 9999))
             :: [Sample.weather.hour_at "2021-04-10T12:00:00+00:00" 1000])%list).
Proof.
  apply (X17_v4_values_of_a_past_entry_are_never_read (H:=Sample.weather.host)).
  eexists _, _. split_and!; reflexivity.
Defined.

(** X18 on the sample host: a v3 payload with an unknown condition, a v4
    payload whose first entry of today has an unknown code, and one whose
    first entry past yesterday's has no timestamp. *)
Lemma X18_witness_one_bad_entry :
  raises (climacell.ClimaCellV3WeatherEntity.forecast (H:=Sample.weather.host)
            (Sample.weather.entity_v3_with climacell.HOURLY None
               [Sample.weather.v3_hour "2021-04-10T12:00:00+00:00" "rain";
                Sample.weather.v3_hour "2021-04-10T13:00:00+00:00" "hail"]))
  /\ climacell.ClimaCellWeatherEntity.forecast (H:=Sample.weather.host)
       (Sample.weather.entity_v4_with false climacell.HOURLY None
          ([Sample.weather.hour_at "2021-04-09T23:00:00+00:00" 4001]
           ++ Sample.weather.hour_at "2021-04-10T12:00:00+00:00" 9999
           :: [Sample.weather.hour_at "2021-04-10T13:00:00+00:00" 1000])%list)
     = Raise climacell.ValueError
  /\ climacell.ClimaCellWeatherEntity.forecast (H:=Sample.weather.host)
       (Sample.weather.entity_v4_with false climacell.HOURLY None
          ([Sample.weather.hour_at "2021-04-09T23:00:00+00:00" 4001]
           ++ Sample.weather.hour_at "soon" 1000
           :: [Sample.weather.hour_at "2021-04-10T13:00:00+00:00" 1000])%list)
     = Raise climacell.AttributeError.
Proof.
  destruct (X18_a_forecast_is_all_or_nothing (H:=Sample.weather.host))
    as (H3 & H4 & Hstamp).
  assert (Hpast : forall rest i, (i < 1)%nat ->
            climacell.past (H:=Sample.weather.host)
              ([Sample.weather.hour_at "2021-04-09T23:00:00+00:00" 4001] ++ rest)%list i).
  { intros rest i Hi. destruct i as [|i]; [|lia].
    eexists _, _. split_and!; reflexivity. }
  split_and!.
  - apply (H3 (Sample.weather.entity_v3_with climacell.HOURLY None
                 [Sample.weather.v3_hour "2021-04-10T12:00:00+00:00" "rain";
                  Sample.weather.v3_hour "2021-04-10T13:00:00+00:00" "hail"])
             [Sample.weather.v3_hour "2021-04-10T12:00:00+00:00" "rain";
              Sample.weather.v3_hour "2021-04-10T13:00:00+00:00" "hail"]
             (Sample.weather.v3_hour "2021-04-10T13:00:00+00:00" "hail")
             climacell.KeyError eq_refl); [|reflexivity].
    apply elem_of_cons; right; apply elem_of_cons; now left.
  - apply (H4 (Sample.weather.entity_v4_with false climacell.HOURLY None
                 ([Sample.weather.hour_at "2021-04-09T23:00:00+00:00" 4001]
                  ++ Sample.weather.hour_at "2021-04-10T12:00:00+00:00" 9999
                  :: [Sample.weather.hour_at "2021-04-10T13:00:00+00:00" 1000])%list)
             [Sample.weather.hour_at "2021-04-09T23:00:00+00:00" 4001]
             (Sample.weather.hour_at "2021-04-10T12:00:00+00:00" 9999)
             [Sample.weather.hour_at "2021-04-10T13:00:00+00:00" 1000]
             {| Sample.weather.stamp_text := "2021-04-10T12:00:00+00:00";
                Sample.weather.stamp_date :=
                  {| climacell.year := 2021; climacell.month := 4; climacell.day := 10 |};
                Sample.weather.stamp_hour := 12 |}
             climacell.ValueError eq_refl (Hpast _)); reflexivity.
  - apply (Hstamp (Sample.weather.entity_v4_with false climacell.HOURLY None
                     ([Sample.weather.hour_at "2021-04-09T23:00:00+00:00" 4001]
                      ++ Sample.weather.hour_at "soon" 1000
                      :: [Sample.weather.hour_at "2021-04-10T13:00:00+00:00" 1000])%list)
             [Sample.weather.hour_at "2021-04-09T23:00:00+00:00" 4001]
             (Sample.weather.hour_at "soon" 1000)
             [Sample.weather.hour_at "2021-04-10T13:00:00+00:00" 1000]
             eq_refl (Hpast _)); reflexivity.
Defined.

(** X19 on the sample host: a clear late evening is sunny in a daily
    forecast of either entity, and a clear night in an hourly one. *)
Lemma X19_witness_clear_evening :
  (exists entry,
     climacell.ClimaCellWeatherEntity.forecast_entry (H:=Sample.weather.host)
       (Sample.weather.entity_v4_with false climacell.DAILY None [])
       (Sample.weather.hour_at "2021-04-10T22:00:00+00:00" 1000)
       (Sample.weather.start_of_day None) = Ok entry
     /\ @Ok climacell.PyExc _ (Some "sunny") = Ok (climacell.ATTR_FORECAST_CONDITION entry))
  /\ (exists entry,
        climacell.ClimaCellWeatherEntity.forecast_entry (H:=Sample.weather.host)
          (Sample.weather.entity_v4_with false climacell.HOURLY None [])
          (Sample.weather.hour_at "2021-04-10T22:00:00+00:00" 1000)
          (Sample.weather.start_of_day None) = Ok entry
        /\ @Ok climacell.PyExc _ (Some "clear-night") = Ok (climacell.ATTR_FORECAST_CONDITION entry))
  /\ (exists entry,
        climacell.ClimaCellV3WeatherEntity.forecast_entry (H:=Sample.weather.host)
          (Sample.weather.entity_v3_with climacell.DAILY None [])
          (Sample.weather.v3_day "2021-04-10T22:00:00+00:00" "clear") = Ok entry
        /\ climacell.ATTR_FORECAST_TIME entry = Some "2021-04-10T00:00:00"
        /\ @Ok climacell.PyExc _ (Some "sunny") = Ok (climacell.ATTR_FORECAST_CONDITION entry)).
Proof.
  destruct (X19_daily_forecasts_are_translated_as_by_day (H:=Sample.weather.host))
    as [H4 H3].
  split_and!.
  - eexists. split; [reflexivity|].
    exact (proj2 (H4 (Sample.weather.entity_v4_with false climacell.DAILY None [])
                     (Sample.weather.hour_at "2021-04-10T22:00:00+00:00" 1000)
                     (Sample.weather.start_of_day None) _ eq_refl)).
  - eexists. split; [reflexivity|].
    exact (proj2 (H4 (Sample.weather.entity_v4_with false climacell.HOURLY None [])
                     (Sample.weather.hour_at "2021-04-10T22:00:00+00:00" 1000)
                     (Sample.weather.start_of_day None) _ eq_refl)).
  - eexists. split; [reflexivity|].
    destruct (H3 (Sample.weather.entity_v3_with climacell.DAILY None [])
                 (Sample.weather.v3_day "2021-04-10T22:00:00+00:00" "clear") _ eq_refl)
      as (timestamp & Hstamp & Htime & Hcond).
    injection Hstamp as <-. split; [exact Htime | exact Hcond].
Defined.

(** X20 on the sample host: an hourly rate of one inch in a daily, metric
    forecast. *)
Lemma X20_witness_an_inch_an_hour :
  exists entry,
    climacell.ClimaCellWeatherEntity.forecast_entry (H:=Sample.weather.host)
      (Sample.weather.entity_v4_with true climacell.DAILY None [])
      (Sample.weather.hour_at "2021-04-10T12:00:00+00:00" 4001)
      Sample.weather.noon_10_april = Ok entry
    /\ climacell.ATTR_FORECAST_PRECIPITATION entry
       = Some (climacell.inches_to_millimeters (H:=Sample.weather.host)
                 (climacell.Zc 1 * climacell.Zc 24)%Qc).
Proof.
  eexists. split; [reflexivity|].
  apply (X20_v4_precipitation_is_an_amount_per_forecast_type (H:=Sample.weather.host)
           (Sample.weather.entity_v4_with true climacell.DAILY None [])
           (Sample.weather.hour_at "2021-04-10T12:00:00+00:00" 4001)
           Sample.weather.noon_10_april _ 0%Z).
  - exact sample_length_zero.
  - discriminate.
  - reflexivity.
Defined.


(** X22 on the sample host: a v3 entry stamped ['soon'], in a daily and in
    an hourly entity. *)
Lemma X22_witness_stamped_soon :
  (exists entry,
     climacell.ClimaCellV3WeatherEntity.forecast_entry (H:=Sample.weather.host)
       (Sample.weather.entity_v3_with climacell.DAILY None [])
       (Sample.weather.v3_day "soon" "rain") = Ok entry
     /\ climacell.ATTR_FORECAST_TIME entry
        = Some (climacell.isoformat (Host:=Sample.weather.host)
                  (climacell.start_of_local_day (Host:=Sample.weather.host) None)))
  /\ raises
       (climacell.ClimaCellV3WeatherEntity.forecast_entry (H:=Sample.weather.host)
          (Sample.weather.entity_v3_with climacell.HOURLY None [])
          (Sample.weather.v3_day "soon" "rain")).
Proof.
  split.
  - apply (proj1 (X22_v3_entry_with_a_timestamp_that_does_not_parse
                    (H:=Sample.weather.host)
                    (Sample.weather.entity_v3_with climacell.DAILY None [])
                    (Sample.weather.v3_day "soon" "rain") "soon" eq_refl eq_refl));
      [reflexivity | now eexists | now eexists].
  - apply (proj2 (X22_v3_entry_with_a_timestamp_that_does_not_parse
                    (H:=Sample.weather.host)
                    (Sample.weather.entity_v3_with climacell.HOURLY None [])
                    (Sample.weather.v3_day "soon" "rain") "soon" eq_refl eq_refl)).
    discriminate.
Defined.
